(** * Verification of the FTS scraper ([src/main.py])

    Shallow embedding of the extract-transform-load pipeline of the
    Financial Transparency System scraper: the cell cleaning function
    [clean_value], the header resolution and batching generator
    [process_excel_data], the database connection set-up
    [connect_to_database] and the per-year orchestration in [main]. *)

From Stdlib Require Import List String Ascii ZArith Bool Lia QArith Sorted.
Import ListNotations.
Open Scope string_scope.

(* ------------------------------------------------------------------ *)
(** ** Python values that a spreadsheet cell can hold *)

(** A Python [float].  Finite values are kept as the decimal [m * 10^e]
    they were written as; the final rounding to binary64 and the sign of
    zero are not modelled. *)
Inductive pyfloat : Type :=
| Finite (m : Z) (e : Z)
| Inf (negative : bool)
| NaN.

(** Value of a finite float as a rational number. *)
Definition pyfloat_to_Q (f : pyfloat) : option Q :=
  match f with
  | Finite m e =>
      if (0 <=? e)%Z then Some (inject_Z (m * 10 ^ e))
      else Some (Qmake m (Z.to_pos (10 ^ (- e))))
  | _ => None
  end.

Record datetime : Type := mk_datetime {
  dt_year : Z; dt_month : Z; dt_day : Z;
  dt_hour : Z; dt_minute : Z; dt_second : Z; dt_microsecond : Z }.

Record date : Type := mk_date { d_year : Z; d_month : Z; d_day : Z }.

Record time : Type := mk_time {
  t_hour : Z; t_minute : Z; t_second : Z; t_microsecond : Z }.

(** The values openpyxl hands out for a cell ([cell.value]). *)
Inductive cell : Type :=
| PyNone
| PyStr (s : string)
| PyBool (b : bool)
| PyInt (z : Z)
| PyFloat (f : pyfloat)
| PyDateTime (dt : datetime)
| PyDate (d : date)
| PyTime (t : time)
| PyTimedelta (days seconds microseconds : Z).

(** [value == s] for a string literal [s]: only a [str] equal to [s]. *)
Definition py_eq_str (v : cell) (s : string) : bool :=
  match v with
  | PyStr s' => String.eqb s' s
  | _ => false
  end.

(** Python truthiness ([bool(value)]); [datetime], [date] and [time]
    objects are always true. *)
Definition truthy (v : cell) : bool :=
  match v with
  | PyNone => false
  | PyStr s => negb (String.eqb s "")
  | PyBool b => b
  | PyInt z => negb (z =? 0)%Z
  | PyFloat (Finite m _) => negb (m =? 0)%Z
  | PyFloat _ => true
  | PyDateTime _ | PyDate _ | PyTime _ => true
  | PyTimedelta d s us => negb ((d =? 0) && (s =? 0) && (us =? 0))%Z
  end.

(* ------------------------------------------------------------------ *)
(** ** [datetime.strftime("%Y-%m-%d")] *)

Definition digit_char (n : nat) : ascii := ascii_of_nat (48 + n).

(** Decimal representation of a natural number ([str(n)]). *)
Fixpoint dec_string_fuel (fuel n : nat) (acc : string) : string :=
  match fuel with
  | O => acc
  | S fuel' =>
      let acc' := String (digit_char (n mod 10)) acc in
      if Nat.ltb n 10 then acc' else dec_string_fuel fuel' (n / 10) acc'
  end.

Definition dec_string (n : nat) : string := dec_string_fuel (S n) n "".

Fixpoint zeros (k : nat) : string :=
  match k with O => "" | S k' => String "0" (zeros k') end.

(** A directive padded with zeros to [w] characters, as [%Y] (width 4),
    [%m] and [%d] (width 2) print a field. *)
Definition zero_pad (w : nat) (z : Z) : string :=
  let s := dec_string (Z.to_nat z) in zeros (w - String.length s) ++ s.

Definition strftime_ymd (dt : datetime) : string :=
  zero_pad 4 (dt_year dt) ++ "-" ++ zero_pad 2 (dt_month dt) ++ "-"
  ++ zero_pad 2 (dt_day dt).

(* ------------------------------------------------------------------ *)
(** ** [float(str)] *)

(** A [string] holds the code points U+0000 to U+00FF of a Python
    [str], one per character. *)

(** [Py_ISSPACE]: the ASCII whitespace that [float()] strips, space and
    the characters 9 to 13 (not the separators 28 to 31, which
    [str.isspace] accepts but [float()] does not strip). *)
Definition is_py_space (c : ascii) : bool :=
  let n := nat_of_ascii c in ((n =? 32) || ((9 <=? n) && (n <=? 13)))%nat.

(** [Py_UNICODE_ISSPACE] on the code points above ASCII: U+0085 and
    U+00A0.  No code point below U+0100 above ASCII is a decimal
    digit. *)
Definition is_unicode_space_high (c : ascii) : bool :=
  let n := nat_of_ascii c in ((n =? 133) || (n =? 160))%nat.

Definition is_digit (c : ascii) : bool :=
  let n := nat_of_ascii c in ((48 <=? n) && (n <=? 57))%nat.

Definition digit_val (c : ascii) : Z := Z.of_nat (nat_of_ascii c - 48).

Fixpoint drop_spaces (l : list ascii) : list ascii :=
  match l with
  | c :: l' => if is_py_space c then drop_spaces l' else l
  | [] => []
  end.

Definition strip (l : list ascii) : list ascii :=
  rev (drop_spaces (rev (drop_spaces l))).

Definition lower (c : ascii) : ascii :=
  let n := nat_of_ascii c in
  if ((65 <=? n) && (n <=? 90))%nat then ascii_of_nat (n + 32) else c.

Definition lower_eq (l : list ascii) (s : string) : bool :=
  String.eqb (string_of_list_ascii (map lower l)) s.

(** Leading run of decimal digits: the digits read and the rest. *)
Fixpoint take_digits (l : list ascii) : list ascii * list ascii :=
  match l with
  | c :: l' =>
      if is_digit c then let (ds, r) := take_digits l' in (c :: ds, r)
      else ([], l)
  | [] => ([], [])
  end.

Definition digits_value (ds : list ascii) : Z :=
  fold_left (fun acc c => acc * 10 + digit_val c)%Z ds 0%Z.

Definition parse_sign (l : list ascii) : bool * list ascii :=
  match l with
  | "-"%char :: l' => (true, l')
  | "+"%char :: l' => (false, l')
  | _ => (false, l)
  end.

(** Optional exponent: nothing, or [e]/[E], a sign and at least one digit. *)
Definition parse_exponent (l : list ascii) : option Z :=
  match l with
  | [] => Some 0%Z
  | c :: l' =>
      if Ascii.eqb c "e" || Ascii.eqb c "E" then
        let (neg, l'') := parse_sign l' in
        match take_digits l'' with
        | ([], _) => None
        | (ds, []) => Some (if neg then - digits_value ds else digits_value ds)%Z
        | _ => None
        end
      else None
  end.

(** [digits ["." digits] [exponent]] with at least one digit before or
    after the point; the whole input must be consumed. *)
Definition parse_decimal (neg : bool) (l : list ascii) : option pyfloat :=
  let (ip, r) := take_digits l in
  let '(fp, r') :=
    match r with
    | "."%char :: r1 => take_digits r1
    | _ => ([], r)
    end in
  match app ip fp with
  | [] => None
  | ds =>
      match parse_exponent r' with
      | Some ex =>
          let m := digits_value ds in
          Some (Finite (if neg then - m else m)%Z (ex - Z.of_nat (List.length fp))%Z)
      | None => None
      end
  end.

Definition float_from_string_inner (l : list ascii) : option pyfloat :=
  let (neg, body) := parse_sign (strip l) in
  if lower_eq body "inf" || lower_eq body "infinity" then Some (Inf neg)
  else if lower_eq body "nan" then Some NaN
  else parse_decimal neg body.

(** Underscores are accepted only between two digits, then dropped. *)
Fixpoint underscores_ok (prev : option ascii) (l : list ascii) : bool :=
  match l with
  | [] => true
  | c :: l' =>
      if Ascii.eqb c "_" then
        match prev, l' with
        | Some p, n :: _ => is_digit p && is_digit n && underscores_ok (Some c) l'
        | _, _ => false
        end
      else underscores_ok (Some c) l'
  end.

(** The loop of [_PyUnicode_TransformDecimalAndSpaceToASCII] on a
    string with a non-ASCII character: characters below 127 are kept,
    Unicode whitespace becomes a space, and any other character ends the
    string with ['?'], which no float literal accepts. *)
Fixpoint transform_chars (l : list ascii) : list ascii :=
  match l with
  | [] => []
  | c :: l' =>
      if Nat.ltb (nat_of_ascii c) 127 then c :: transform_chars l'
      else if is_unicode_space_high c then " "%char :: transform_chars l'
      else ["?"%char]
  end.

(** [_PyUnicode_TransformDecimalAndSpaceToASCII]: an ASCII string is
    returned as it is. *)
Definition transform_decimal_and_space_to_ascii (l : list ascii) : list ascii :=
  if forallb (fun c => Nat.ltb (nat_of_ascii c) 128) l then l else transform_chars l.

(** [float(s)] for a [str]: [PyFloat_FromString] transforms the string
    to ASCII, then checks and drops the underscores
    ([_Py_string_to_number_with_underscores]), and the inner parser
    strips the ASCII whitespace and reads the literal. *)
Definition py_float (s : string) : option pyfloat :=
  let l := transform_decimal_and_space_to_ascii (list_ascii_of_string s) in
  if existsb (fun c => Ascii.eqb c "_") l then
    if underscores_ok None l
    then float_from_string_inner (filter (fun c => negb (Ascii.eqb c "_")) l)
    else None
  else float_from_string_inner l.

(** [value.replace(",", "")] *)
Fixpoint remove_commas (s : string) : string :=
  match s with
  | EmptyString => EmptyString
  | String c s' => if Ascii.eqb c "," then remove_commas s' else String c (remove_commas s')
  end.

(* ------------------------------------------------------------------ *)
(** ** [clean_value(value, column_type=None)] *)

Definition opt_str_eqb (o : option string) (s : string) : bool :=
  match o with Some s' => String.eqb s' s | None => false end.

Definition clean_value (value : cell) (column_type : option string) : cell :=
  if (match value with PyNone => true | _ => false end) || py_eq_str value "" then PyNone
  else if opt_str_eqb column_type "boolean" then
    if py_eq_str value "Yes" then PyBool true
    else if py_eq_str value "No" then PyBool false
    else PyNone
  else
    let date_result :=
      if opt_str_eqb column_type "date" then
        match value with
        | PyDateTime dt => Some (PyStr (strftime_ymd dt))
        | _ => if py_eq_str value "-" || negb (truthy value) then Some PyNone else None
        end
      else None in
    match date_result with
    | Some r => r
    | None =>
        if opt_str_eqb column_type "numeric" then
          match value with
          | PyInt _ | PyFloat _ | PyBool _ => value
          | PyStr s =>
              match py_float (remove_commas s) with
              | Some f => PyFloat f
              | None => PyNone
              end
          | _ => PyNone
          end
        else value
    end.

(* ------------------------------------------------------------------ *)
(** ** Python exceptions *)

(** An exception: its class name and whether the class derives from
    [Exception] (what an [except Exception] clause catches) or only from
    [BaseException] ([KeyboardInterrupt], [SystemExit]). *)
Record exn : Type := mk_exn { exn_name : string; exn_is_Exception : bool }.

Definition ValueError : exn := mk_exn "ValueError" true.
Definition IndexError : exn := mk_exn "IndexError" true.
(** [next()] on an exhausted iterator inside a generator (PEP 479). *)
Definition RuntimeError : exn := mk_exn "RuntimeError" true.
Definition KeyboardInterrupt : exn := mk_exn "KeyboardInterrupt" false.

Inductive res (A : Type) : Type :=
| Ok (a : A)
| Raise (e : exn).
Arguments Ok {A} a.
Arguments Raise {A} e.

(* ------------------------------------------------------------------ *)
(** ** Column mapping and column types *)

Definition get_column_mapping : list (string * string) := [
  ("Year", "year");
  ("Budget", "budget");
  ("Reference of the Legal Commitment (LC)", "reference_legal_commitment");
  ("Reference (Budget)", "reference_budget");
  ("Name of beneficiary", "beneficiary_name");
  ("VAT number of beneficiary", "beneficiary_vat");
  ("Not-for-profit organisation (NFPO)", "not_for_profit");
  ("Non-governmental organisation (NGO)", "non_governmental");
  ("Coordinator", "coordinator");
  ("Address", "address");
  ("City", "city");
  ("Postal code", "postal_code");
  ("Beneficiary country", "beneficiary_country");
  ("NUTS2", "nuts2");
  ("Geographical Zone", "geographical_zone");
  ("Action location", "action_location");
  ("Beneficiary's contracted amount (EUR)", "beneficiary_contracted_amount");
  ("Beneficiary's estimated contracted amount (EUR)", "beneficiary_estimated_contracted_amount");
  ("Beneficiary's estimated consumed amount (EUR)", "beneficiary_estimated_consumed_amount");
  ("Commitment contracted amount (EUR) (A)", "commitment_contracted_amount");
  ("Additional/Reduced amount (EUR) (B)", "additional_reduced_amount");
  ("Commitment  total amount (EUR) (A+B)", "commitment_total_amount");
  ("Commitment consumed amount (EUR)", "commitment_consumed_amount");
  ("Source of (estimated) detailed amount", "source_estimated_detailed_amount");
  ("Expense type", "expense_type");
  ("Subject of grant or contract", "subject_grant_contract");
  ("Responsible department", "responsible_department");
  ("Budget line number", "budget_line_number");
  ("Budget line name", "budget_line_name");
  ("Programme name", "programme_name");
  ("Funding type", "funding_type");
  ("Beneficiary Group Code", "beneficiary_group_code");
  ("Beneficiary type", "beneficiary_type");
  ("Project start date", "project_start_date");
  ("Project end date", "project_end_date");
  ("Type of contract*", "type_of_contract");
  ("Management type", "management_type");
  ("Benefiting country", "benefiting_country")].

Definition get_column_types : list (string * string) := [
  ("Not-for-profit organisation (NFPO)", "boolean");
  ("Non-governmental organisation (NGO)", "boolean");
  ("Coordinator", "boolean");
  ("Project start date", "date");
  ("Project end date", "date");
  ("Beneficiary's contracted amount (EUR)", "numeric");
  ("Beneficiary's estimated contracted amount (EUR)", "numeric");
  ("Beneficiary's estimated consumed amount (EUR)", "numeric");
  ("Commitment contracted amount (EUR) (A)", "numeric");
  ("Additional/Reduced amount (EUR) (B)", "numeric");
  ("Commitment  total amount (EUR) (A+B)", "numeric");
  ("Commitment consumed amount (EUR)", "numeric")].

Fixpoint assoc_lookup {A : Type} (k : string) (d : list (string * A)) : option A :=
  match d with
  | [] => None
  | (k', v) :: d' => if String.eqb k' k then Some v else assoc_lookup k d'
  end.

(** [header in d] / [d[header]] for a dict keyed by strings: a header
    cell that is not a [str] is never a key. *)
Definition header_lookup (header : cell) (d : list (string * string)) : option string :=
  match header with
  | PyStr s => assoc_lookup s d
  | _ => None
  end.

Fixpoint nat_lookup (k : nat) (d : list (nat * string)) : option string :=
  match d with
  | [] => None
  | (k', v) :: d' => if Nat.eqb k' k then Some v else nat_lookup k d'
  end.

(** [enumerate(l)] *)
Fixpoint enumerate_from {A : Type} (i : nat) (l : list A) : list (nat * A) :=
  match l with
  | [] => []
  | x :: l' => (i, x) :: enumerate_from (S i) l'
  end.

(** The loop that fills [excel_to_db_columns] (a dict [idx -> db column],
    kept in insertion order) and [db_columns]. *)
Fixpoint resolve_columns (d : list (string * string)) (hs : list (nat * cell))
  : list (nat * string) :=
  match hs with
  | [] => []
  | (idx, header) :: hs' =>
      match header_lookup header d with
      | Some col => (idx, col) :: resolve_columns d hs'
      | None => resolve_columns d hs'
      end
  end.

Definition excel_to_db_columns (headers : list cell) : list (nat * string) :=
  resolve_columns get_column_mapping (enumerate_from 0 headers).

Definition db_columns (headers : list cell) : list string :=
  map snd (excel_to_db_columns headers).

Definition excel_column_types (headers : list cell) : list (nat * string) :=
  resolve_columns get_column_types (enumerate_from 0 headers).

(* ------------------------------------------------------------------ *)
(** ** [process_excel_data]: the batching generator *)

Definition batch_size : nat := 5000.
Arguments batch_size : simpl never.

Definition batch : Type := (list string * list (list cell))%type.

(** [row_values] for one data row; [row[idx]] raises [IndexError] when
    the row is shorter than the header. *)
Fixpoint row_values (xty : list (nat * string)) (cols : list (nat * string))
  (row : list cell) : res (list cell) :=
  match cols with
  | [] => Ok []
  | (idx, _) :: cols' =>
      match nth_error row idx with
      | None => Raise IndexError
      | Some value =>
          match row_values xty cols' row with
          | Ok vs => Ok (clean_value value (nat_lookup idx xty) :: vs)
          | Raise e => Raise e
          end
      end
  end.

(** What [ws.iter_rows()] delivers, lazily, for the active sheet of a
    read-only workbook: the rows parsed before the first read error, the
    header row first, and that error, raised by the iterator once these
    rows are consumed, if there is one.  Each call of [iter_rows()]
    parses the sheet again from its first row. *)
Definition sheet_rows : Type := (list (list cell) * option exn)%type.

(** The loop over the data rows: [rows] is the pending batch and [stop]
    the read error that ends the row iterator, if any.  The result is
    the list of yielded batches and, if the generator stopped on an
    exception, that exception. *)
Fixpoint batch_loop (db_cols : list string) (xdb xty : list (nat * string))
  (stop : option exn) (data : list (list cell)) (rows : list (list cell))
  : list batch * option exn :=
  match data with
  | [] =>
      match stop with
      | Some e => ([], Some e)
      | None => (match rows with [] => [] | _ => [(db_cols, rows)] end, None)
      end
  | row :: data' =>
      match row_values xty xdb row with
      | Raise e => ([], Some e)
      | Ok vals =>
          let rows' := app rows [vals] in
          if Nat.leb batch_size (List.length rows') then
            let (bs, err) := batch_loop db_cols xdb xty stop data' [] in
            ((db_cols, rows') :: bs, err)
          else batch_loop db_cols xdb xty stop data' rows'
      end
  end.

(** [process_excel_data(file_path, year)] (the [year] only appears in
    messages).  [load_workbook file_path] stands for
    [openpyxl.load_workbook(file_path, read_only=True, data_only=True)]
    and [wb.active]: it fails with the exception these raise (a file
    that is no workbook, for one), or gives the rows of the sheet.  The
    header is the first row of a first [iter_rows()]: a read error
    before it is raised there, and an empty sheet makes [next()] raise
    [StopIteration] in the generator, turned into [RuntimeError]. *)
Definition process_excel_data (load_workbook : string -> res sheet_rows)
  (file_path : string) : list batch * option exn :=
  match load_workbook file_path with
  | Raise e => ([], Some e)
  | Ok (sheet, stop) =>
      match sheet with
      | [] => ([], Some (match stop with Some e => e | None => RuntimeError end))
      | headers :: data =>
          batch_loop (db_columns headers) (excel_to_db_columns headers)
            (excel_column_types headers) stop data []
      end
  end.

(* ------------------------------------------------------------------ *)
(** ** Effects: a writer and exception monad over observable events *)

(** The observable actions of a run: calls that reach the network, the
    file system or the database, and the messages of the [except]
    handlers. *)
Inductive event : Type :=
| EvConnect (host port dbname user password : string)
| EvCreateTable
| EvGet (year : Z)
| EvSaved (year : Z)
| EvInsert (year : Z) (columns : list string) (rows : list (list cell))
| EvDownloadFailed (year status : Z)
| EvYearError (year : Z) (e : exn)
| EvDbError (e : exn)
| EvClose.

(** A computation: its outcome and the events it performed, in order. *)
Definition M (A : Type) : Type := (res A * list event)%type.

Definition ret {A : Type} (a : A) : M A := (Ok a, []).

Definition bind {A B : Type} (m : M A) (f : A -> M B) : M B :=
  match m with
  | (Ok a, t) => let (r, t') := f a in (r, app t t')
  | (Raise e, t) => (Raise e, t)
  end.

Definition emit (ev : event) : M unit := (Ok tt, [ev]).

Definition raise {A : Type} (e : exn) : M A := (Raise e, []).

Definition lift {A : Type} (r : res A) : M A := (r, []).

Notation "x <- m ;; k" := (bind m (fun x => k))
  (at level 61, m at next level, right associativity).

(** [try: m except Exception as e: handler(e)] *)
Definition try_except {A : Type} (m : M A) (handler : exn -> M A) : M A :=
  match m with
  | (Raise e, t) =>
      if exn_is_Exception e then let (r, t') := handler e in (r, app t t')
      else (Raise e, t)
  | ok => ok
  end.

Record response : Type := mk_response { status_code : Z; content : string }.

(* ------------------------------------------------------------------ *)
(** ** [connect_to_database] *)

Definition env : Type := list (string * string).

(** [load_dotenv()]: the variables of the [.env] file that the process
    environment does not define are added to it (the last definition of
    a key in the file wins). *)
Definition load_dotenv (environ dotenv : env) : env :=
  app environ
    (filter (fun kv => match assoc_lookup (fst kv) environ with
                       | Some _ => false | None => true end) (rev dotenv)).

Definition os_getenv (environ : env) (k : string) : option string :=
  assoc_lookup k environ.

Definition getenv_default (environ : env) (k default : string) : string :=
  match os_getenv environ k with Some v => v | None => default end.

(** Truthiness of [os.getenv(k)]: [None] and [""] are false. *)
Definition opt_truthy (o : option string) : bool :=
  match o with Some s => negb (String.eqb s "") | None => false end.

Definition opt_get (o : option string) : string :=
  match o with Some s => s | None => "" end.

Section Pipeline.

(** The outside world, as seen by the program. *)
Variable pg_connect : string -> string -> string -> string -> string -> res unit.
Variable pg_create_table : res unit.
Variable make_temp_dir : res unit.
Variable http_get : Z -> res response.
Variable save_file : Z -> string -> res unit.
(** [openpyxl.load_workbook] of the saved payload and the rows of its
    active sheet. *)
Variable load_workbook : string -> res sheet_rows.
(** [execute_values] followed by [conn.commit()]. *)
Variable pg_insert : list string -> list (list cell) -> res unit.

Definition connect_to_database (environ dotenv : env) : M unit :=
  let environ' := load_dotenv environ dotenv in
  let db_host := getenv_default environ' "DB_HOST" "localhost" in
  let db_port := getenv_default environ' "DB_PORT" "5432" in
  let db_name := os_getenv environ' "DB_NAME" in
  let db_user := os_getenv environ' "DB_USER" in
  let db_password := os_getenv environ' "DB_PASSWORD" in
  if negb (forallb opt_truthy [db_name; db_user; db_password]) then raise ValueError
  else
    _ <- emit (EvConnect db_host db_port (opt_get db_name) (opt_get db_user)
                 (opt_get db_password)) ;;
    lift (pg_connect db_host db_port (opt_get db_name) (opt_get db_user)
            (opt_get db_password)).

(** [create_table(conn)] *)
Definition create_table : M unit :=
  _ <- lift pg_create_table ;; emit EvCreateTable.

(** [insert_data_batch(conn, db_columns, rows)] *)
Definition insert_data_batch (year : Z) (cols : list string) (rows : list (list cell))
  : M unit :=
  _ <- lift (pg_insert cols rows) ;; emit (EvInsert year cols rows).

Fixpoint insert_batches (year : Z) (bs : list batch) : M unit :=
  match bs with
  | [] => ret tt
  | (cols, rows) :: bs' => _ <- insert_data_batch year cols rows ;; insert_batches year bs'
  end.

(** [insert_data(conn, file_path, year)]: every batch the generator
    yields is inserted before the generator resumes, so an exception of
    the generator surfaces after the batches it yielded are inserted. *)
Definition insert_data (year : Z) (payload : string) : M unit :=
  let (bs, err) := process_excel_data load_workbook payload in
  _ <- insert_batches year bs ;;
  match err with
  | Some e => raise e
  | None => ret tt
  end.

(** The body of the per-year [try] block. *)
Definition year_body (year : Z) : M unit :=
  _ <- emit (EvGet year) ;;
  resp <- lift (http_get year) ;;
  if (status_code resp =? 200)%Z then
    _ <- lift (save_file year (content resp)) ;;
    _ <- emit (EvSaved year) ;;
    insert_data year (content resp)
  else emit (EvDownloadFailed year (status_code resp)).

Definition year_step (year : Z) : M unit :=
  try_except (year_body year) (fun e => emit (EvYearError year e)).

Fixpoint years_loop (ys : list Z) : M unit :=
  match ys with
  | [] => ret tt
  | y :: ys' => _ <- year_step y ;; years_loop ys'
  end.

(** [range(2007, current_year + 1)] *)
Definition years_range (current_year : Z) : list Z :=
  map (fun i => 2007 + Z.of_nat i)%Z (seq 0 (Z.to_nat (current_year + 1 - 2007))).

(** [main()]: the outer [try] catches [Exception]s of the set-up and of
    the loop; the [finally] clause closes the connection only when it was
    opened. *)
Definition main (environ dotenv : env) (current_year : Z) : M unit :=
  match connect_to_database environ dotenv with
  | (Raise e, t) =>
      if exn_is_Exception e then (Ok tt, app t [EvDbError e]) else (Raise e, t)
  | (Ok _, t) =>
      let (r, t') :=
        try_except
          (_ <- create_table ;; _ <- lift make_temp_dir ;;
           years_loop (years_range current_year))
          (fun e => emit (EvDbError e)) in
      (r, app t (app t' [EvClose]))
  end.

End Pipeline.

(* ------------------------------------------------------------------ *)
(** ** The [fts_data] table *)

(** The columns that [create_table] declares for [fts_data], with their
    SQL types, in declaration order. *)
Definition fts_data_columns : list (string * string) := [
  ("id", "SERIAL PRIMARY KEY");
  ("year", "INTEGER");
  ("budget", "TEXT");
  ("reference_legal_commitment", "TEXT");
  ("reference_budget", "TEXT");
  ("beneficiary_name", "TEXT");
  ("beneficiary_vat", "TEXT");
  ("not_for_profit", "BOOLEAN");
  ("non_governmental", "BOOLEAN");
  ("coordinator", "BOOLEAN");
  ("address", "TEXT");
  ("city", "TEXT");
  ("postal_code", "TEXT");
  ("beneficiary_country", "TEXT");
  ("nuts2", "TEXT");
  ("geographical_zone", "TEXT");
  ("action_location", "TEXT");
  ("beneficiary_contracted_amount", "NUMERIC");
  ("beneficiary_estimated_contracted_amount", "NUMERIC");
  ("beneficiary_estimated_consumed_amount", "NUMERIC");
  ("commitment_contracted_amount", "NUMERIC");
  ("additional_reduced_amount", "NUMERIC");
  ("commitment_total_amount", "NUMERIC");
  ("commitment_consumed_amount", "NUMERIC");
  ("source_estimated_detailed_amount", "TEXT");
  ("expense_type", "TEXT");
  ("subject_grant_contract", "TEXT");
  ("responsible_department", "TEXT");
  ("budget_line_number", "TEXT");
  ("budget_line_name", "TEXT");
  ("programme_name", "TEXT");
  ("funding_type", "TEXT");
  ("beneficiary_group_code", "TEXT");
  ("beneficiary_type", "TEXT");
  ("project_start_date", "DATE");
  ("project_end_date", "DATE");
  ("type_of_contract", "TEXT");
  ("management_type", "TEXT");
  ("benefiting_country", "TEXT")].

(* ------------------------------------------------------------------ *)
(** ** Reading of the specification *)

(** The calendar-date literal [YYYY-MM-DD] of the specification, digit
    by digit. *)
Definition dchar (z : Z) : ascii := ascii_of_nat (48 + Z.to_nat z).

Definition yyyy_mm_dd (y m d : Z) : string :=
  string_of_list_ascii
    [dchar (y / 1000); dchar (y / 100 mod 10); dchar (y / 10 mod 10); dchar (y mod 10);
     "-"%char; dchar (m / 10); dchar (m mod 10);
     "-"%char; dchar (d / 10); dchar (d mod 10)]%Z.

Definition four_digits (z : Z) : string :=
  string_of_list_ascii
    [dchar (z / 1000); dchar (z / 100 mod 10); dchar (z / 10 mod 10); dchar (z mod 10)]%Z.

Definition two_digits (z : Z) : string :=
  string_of_list_ascii [dchar (z / 10); dchar (z mod 10)]%Z.

(** Headers that ColumnMapping knows. *)
Definition is_mapped (h : cell) : bool :=
  match header_lookup h get_column_mapping with Some _ => true | None => false end.

(** The mapped headers with their positions, in header order. *)
Definition mapped_headers (headers : list cell) : list (nat * cell) :=
  filter (fun ih => is_mapped (snd ih)) (enumerate_from 0 headers).

(** The ColumnMapping images of the mapped headers, in header order. *)
Definition mapped_images (headers : list cell) : list string :=
  flat_map (fun h => match header_lookup h get_column_mapping with
                     | Some c => [c] | None => [] end) headers.

(** A data row cleaned column by column: one cell per mapped header,
    cleaned with that header's ColumnType. *)
Definition project_row (headers : list cell) (row : list cell) : list cell :=
  map (fun ih => clean_value (nth (fst ih) row PyNone) (header_lookup (snd ih) get_column_types))
    (mapped_headers headers).

(** A data row has a cell at the position of every mapped header. *)
Definition row_processable (headers row : list cell) : bool :=
  forallb (fun p => Nat.ltb (fst p) (List.length row)) (excel_to_db_columns headers).

(** Every data row has a cell at the position of every mapped header. *)
Definition processable (headers : list cell) (data : list (list cell)) : bool :=
  forallb (row_processable headers) data.

(** Sizes of a batch sequence: all batches but the last are full, the
    last one is non-empty and not larger than [batch_size]. *)
Definition last_batch_ok (bs : list batch) : Prop :=
  match rev bs with
  | [] => True
  | b :: _ => (0 < List.length (snd b) <= batch_size)%nat
  end.

(** An outcome that an [except Exception] clause would catch, if it is
    an exception at all. *)
Definition res_catchable {A : Type} (r : res A) : Prop :=
  match r with
  | Ok _ => True
  | Raise e => exn_is_Exception e = true
  end.

Definition catchable {A : Type} (m : M A) : Prop := res_catchable (fst m).

(** A workbook whose opening and reading fail, if at all, with an
    exception deriving from [Exception]. *)
Definition sheet_catchable (r : res sheet_rows) : Prop :=
  match r with
  | Raise e => exn_is_Exception e = true
  | Ok (_, Some e) => exn_is_Exception e = true
  | Ok (_, None) => True
  end.

(** No string occurs twice in a list. *)
Fixpoint nodupb (l : list string) : bool :=
  match l with
  | [] => true
  | s :: l' => negb (existsb (String.eqb s) l') && nodupb l'
  end.

(** The agreement between the ColumnTypes entry of a mapped header and
    the SQL type of its column, as a check on one mapping entry. *)
Definition column_agrees (entry : string * string) : bool :=
  let (h, c) := entry in
  let t := assoc_lookup h get_column_types in
  let sql := assoc_lookup c fts_data_columns in
  Bool.eqb (opt_str_eqb t "boolean") (opt_str_eqb sql "BOOLEAN") &&
  Bool.eqb (opt_str_eqb t "date") (opt_str_eqb sql "DATE") &&
  Bool.eqb (opt_str_eqb t "numeric") (opt_str_eqb sql "NUMERIC") &&
  negb (String.eqb c "id") &&
  match sql with Some _ => true | None => false end.

(* ================================================================== *)
(** * Properties of [clean_value] *)

Lemma zero_pad4_table :
  forallb (fun n => String.eqb (zero_pad 4 (Z.of_nat n)) (four_digits (Z.of_nat n)))
    (seq 0 10000) = true.
Proof. vm_compute. reflexivity. Qed.

Lemma zero_pad2_table :
  forallb (fun n => String.eqb (zero_pad 2 (Z.of_nat n)) (two_digits (Z.of_nat n)))
    (seq 0 100) = true.
Proof. vm_compute. reflexivity. Qed.

Lemma table_spec (f g : Z -> string) (bound : nat) (z : Z) :
  forallb (fun n => String.eqb (f (Z.of_nat n)) (g (Z.of_nat n))) (seq 0 bound) = true ->
  (0 <= z < Z.of_nat bound)%Z -> f z = g z.
Proof.
  intros Htab Hz.
  rewrite forallb_forall in Htab.
  specialize (Htab (Z.to_nat z)).
  rewrite Z2Nat.id in Htab by lia.
  apply String.eqb_eq, Htab, in_seq. lia.
Qed.

Lemma zero_pad4_digits (z : Z) : (0 <= z <= 9999)%Z -> zero_pad 4 z = four_digits z.
Proof.
  intro H. apply (table_spec _ _ 10000 z zero_pad4_table).
  assert (E : Z.of_nat 10000 = 10000%Z) by reflexivity. lia.
Qed.

Lemma zero_pad2_digits (z : Z) : (0 <= z <= 99)%Z -> zero_pad 2 z = two_digits z.
Proof.
  intro H. apply (table_spec _ _ 100 z zero_pad2_table).
  assert (E : Z.of_nat 100 = 100%Z) by reflexivity. lia.
Qed.

Lemma strftime_ymd_literal (dt : datetime) :
  (0 <= dt_year dt <= 9999)%Z -> (0 <= dt_month dt <= 99)%Z -> (0 <= dt_day dt <= 99)%Z ->
  strftime_ymd dt = yyyy_mm_dd (dt_year dt) (dt_month dt) (dt_day dt).
Proof.
  intros Hy Hm Hd. unfold strftime_ymd.
  rewrite zero_pad4_digits, !zero_pad2_digits by assumption.
  reflexivity.
Qed.

Lemma clean_value_str_nonempty (s : string) (ct : option string) :
  s <> "" -> opt_str_eqb ct "boolean" = false -> opt_str_eqb ct "date" = false ->
  opt_str_eqb ct "numeric" = false -> clean_value (PyStr s) ct = PyStr s.
Proof.
  intros Hs Hb Hd Hn. unfold clean_value. simpl.
  destruct (String.eqb_spec s "") as [E | _]; [contradiction |].
  rewrite Hb, Hd, Hn. reflexivity.
Qed.

(** C1. For a boolean-typed cell, [clean_value] maps the string ["Yes"]
    to [True], the string ["No"] to [False] and every other value to
    [None]: the empty string, [None], other spellings such as ["yes"],
    and native booleans among them. *)
Theorem clean_value_boolean (v : cell) :
  clean_value v (Some "boolean") =
  if py_eq_str v "Yes" then PyBool true
  else if py_eq_str v "No" then PyBool false
  else PyNone.
Proof.
  destruct v as [| s | | | | | | |]; try reflexivity.
  unfold clean_value. simpl.
  destruct (String.eqb_spec s "") as [-> | _]; reflexivity.
Qed.

(** C2. For a numeric-typed cell, native numbers ([int], [float], and
    [bool], a subclass of [int]) are returned unchanged; a string has all
    its commas removed and is parsed by [float()], a string [float()]
    rejects giving [None].  ["1,234.50"] gives the float 1234.50,
    ["abc"] gives [None] and the native [42] gives [42]. *)
Theorem clean_value_numeric :
  (forall z, clean_value (PyInt z) (Some "numeric") = PyInt z) /\
  (forall f, clean_value (PyFloat f) (Some "numeric") = PyFloat f) /\
  (forall b, clean_value (PyBool b) (Some "numeric") = PyBool b) /\
  (forall s, clean_value (PyStr s) (Some "numeric") =
             match py_float (remove_commas s) with
             | Some f => PyFloat f
             | None => PyNone
             end) /\
  clean_value (PyStr "1,234.50") (Some "numeric") = PyFloat (Finite 123450 (-2)) /\
  match pyfloat_to_Q (Finite 123450 (-2)) with Some q => Qeq q (2469 # 2) | None => False end /\
  clean_value (PyStr "abc") (Some "numeric") = PyNone /\
  clean_value (PyInt 42) (Some "numeric") = PyInt 42.
Proof.
  split; [reflexivity |]. split; [reflexivity |]. split; [reflexivity |].
  split.
  - intro s. unfold clean_value. simpl.
    destruct (String.eqb_spec s "") as [-> | _]; reflexivity.
  - repeat split; vm_compute; reflexivity.
Qed.

(** C10. For a date-typed cell, a non-empty string other than ["-"] is
    returned unchanged: no date parsing, neither [None] nor an
    exception. *)
Theorem clean_value_date_string (s : string) :
  s <> "" -> s <> "-" -> clean_value (PyStr s) (Some "date") = PyStr s.
Proof.
  intros Hs Hdash. unfold clean_value. simpl.
  destruct (String.eqb_spec s "") as [E | _]; [contradiction |].
  destruct (String.eqb_spec s "-") as [E | _]; [contradiction |].
  reflexivity.
Qed.

Lemma clean_value_date_string_witness :
  clean_value (PyStr "2023/05/01") (Some "date") = PyStr "2023/05/01".
Proof. apply clean_value_date_string; discriminate. Defined.

(** C3, as stated, fails: a native [datetime.date] object (not a
    [datetime]) of 2023-05-01 in a date-typed cell is returned as the
    [date] object itself, not as the string ["2023-05-01"]. *)
Lemma clean_value_date_object_counterexample :
  clean_value (PyDate (mk_date 2023 5 1)) (Some "date") = PyDate (mk_date 2023 5 1) /\
  clean_value (PyDate (mk_date 2023 5 1)) (Some "date") <> PyStr "2023-05-01".
Proof. split; [reflexivity | discriminate]. Qed.

(** C3 (amended). For a date-typed cell, a [datetime] value is formatted
    as the literal [YYYY-MM-DD] of its calendar date, the string ["-"]
    and every falsy value give [None], and [date] and [time] objects that
    are not [datetime] instances are returned unchanged; [clean_value] is
    a total function and raises on no input. *)
Theorem clean_value_date (dt : datetime) :
  (1 <= dt_year dt <= 9999)%Z -> (1 <= dt_month dt <= 12)%Z -> (1 <= dt_day dt <= 31)%Z ->
  clean_value (PyDateTime dt) (Some "date") =
    PyStr (yyyy_mm_dd (dt_year dt) (dt_month dt) (dt_day dt)) /\
  clean_value (PyStr "-") (Some "date") = PyNone /\
  (forall v, truthy v = false -> clean_value v (Some "date") = PyNone) /\
  (forall d, clean_value (PyDate d) (Some "date") = PyDate d) /\
  (forall t, clean_value (PyTime t) (Some "date") = PyTime t).
Proof.
  intros Hy Hm Hd. split; [| split; [reflexivity | split; [| split; reflexivity]]].
  - unfold clean_value. simpl. rewrite strftime_ymd_literal by lia. reflexivity.
  - intros v Hv.
    destruct v as [| s | b | z | f | | | | days secs us]; unfold clean_value;
      simpl in Hv |- *; try discriminate; try reflexivity.
    + apply negb_false_iff, String.eqb_eq in Hv. subst s. reflexivity.
    + subst b. reflexivity.
    + rewrite Hv. reflexivity.
    + destruct f; try discriminate. simpl. rewrite Hv. reflexivity.
    + rewrite Hv. reflexivity.
Qed.

Lemma clean_value_date_witness :
  clean_value (PyDateTime (mk_datetime 2023 5 1 0 0 0 0)) (Some "date") = PyStr "2023-05-01" /\
  clean_value (PyStr "-") (Some "date") = PyNone.
Proof.
  destruct (clean_value_date (mk_datetime 2023 5 1 0 0 0 0)) as [H1 [H2 _]];
    simpl; try lia.
  split; [rewrite H1; vm_compute; reflexivity | exact H2].
Defined.

(* ================================================================== *)
(** * Properties of [process_excel_data] *)

Lemma batch_size_pos : (0 < batch_size)%nat.
Proof. apply Nat.ltb_lt. vm_compute. reflexivity. Qed.

Lemma last_batch_ok_cons (b : batch) (bs : list batch) :
  List.length (snd b) = batch_size ->
  Forall (fun b => List.length (snd b) = batch_size) (removelast bs) ->
  last_batch_ok bs ->
  Forall (fun b => List.length (snd b) = batch_size) (removelast (b :: bs)) /\
  last_batch_ok (b :: bs).
Proof.
  intros Hb Hrl Hl. destruct bs as [| b' bs'].
  - split; [constructor |]. unfold last_batch_ok. cbn. rewrite Hb.
    pose proof batch_size_pos. lia.
  - split.
    + change (removelast (b :: b' :: bs')) with (b :: removelast (b' :: bs')).
      constructor; assumption.
    + unfold last_batch_ok in *.
      change (rev (b :: b' :: bs')) with (app (rev (b' :: bs')) [b]).
      destruct (rev (b' :: bs')) as [| x y] eqn:E.
      * cbn in E. destruct (rev bs'); discriminate.
      * exact Hl.
Qed.

Lemma batch_loop_spec (cols : list string) (xdb xty : list (nat * string))
  (g : list cell -> list cell) (data rows : list (list cell)) :
  (List.length rows < batch_size)%nat ->
  (forall row, In row data -> row_values xty xdb row = Ok (g row)) ->
  let r := batch_loop cols xdb xty None data rows in
  snd r = None /\
  Forall (fun b => fst b = cols) (fst r) /\
  List.concat (map snd (fst r)) = app rows (map g data) /\
  Forall (fun b => List.length (snd b) = batch_size) (removelast (fst r)) /\
  last_batch_ok (fst r).
Proof.
  revert rows. induction data as [| row data IH]; intros rows Hlen Hrows; cbn.
  - destruct rows as [| v vs]; cbn.
    + repeat split; constructor.
    + split; [reflexivity |]. split; [repeat constructor |].
      split; [cbn; rewrite app_nil_r; reflexivity |].
      split; [constructor |]. unfold last_batch_ok. cbn in *. lia.
  - rewrite (Hrows row (or_introl eq_refl)).
    assert (Hd : forall r, In r data -> row_values xty xdb r = Ok (g r))
      by (intros r Hr; apply Hrows; right; exact Hr).
    rewrite length_app. cbn.
    destruct (Nat.leb_spec batch_size (List.length rows + 1)) as [Hfull | Hnot].
    + destruct (IH [] batch_size_pos Hd) as (Herr & Hcols & Hcat & Hrl & Hl).
      destruct (batch_loop cols xdb xty None data []) as [bs err] eqn:Ebl. cbn in *.
      destruct (last_batch_ok_cons (cols, app rows [g row]) bs) as [Hrl' Hl'];
        [cbn; rewrite length_app; cbn; lia | exact Hrl | exact Hl |].
      repeat split; try assumption.
      * constructor; [reflexivity | exact Hcols].
      * cbn. rewrite Hcat. cbn. rewrite <- app_assoc. reflexivity.
    + destruct (IH (app rows [g row]) ltac:(rewrite length_app; cbn; lia) Hd)
        as (Herr & Hcols & Hcat & Hrl & Hl).
      repeat split; try assumption.
      rewrite Hcat, <- app_assoc. reflexivity.
Qed.

Lemma batch_loop_columns (cols : list string) (xdb xty : list (nat * string))
  (stop : option exn) (data rows : list (list cell)) :
  Forall (fun b => fst b = cols) (fst (batch_loop cols xdb xty stop data rows)).
Proof.
  revert rows. induction data as [| row data IH]; intro rows; cbn.
  - destruct stop; [constructor |]. destruct rows; repeat constructor.
  - destruct (row_values xty xdb row); [| constructor].
    destruct (Nat.leb batch_size (List.length (app rows [a]))).
    + specialize (IH []). destruct (batch_loop cols xdb xty stop data []) as [bs err].
      constructor; [reflexivity | exact IH].
    + apply IH.
Qed.

Lemma enumerate_from_in {A : Type} (j i : nat) (x d : A) (l : list A) :
  In (i, x) (enumerate_from j l) -> (j <= i < j + List.length l)%nat /\ nth (i - j) l d = x.
Proof.
  revert j. induction l as [| y l IH]; intros j Hin; cbn in Hin; [contradiction |].
  destruct Hin as [E | Hin].
  - injection E as <- <-. cbn. rewrite Nat.sub_diag. split; [lia | reflexivity].
  - destruct (IH (S j) Hin) as [Hb Hn]. cbn. split; [lia |].
    replace (i - j)%nat with (S (i - S j)) by lia. exact Hn.
Qed.

Lemma resolve_columns_in (d : list (string * string)) (l : list (nat * cell)) (p : nat * string) :
  In p (resolve_columns d l) -> exists h, In (fst p, h) l.
Proof.
  induction l as [| [i h] l IH]; cbn; [contradiction |].
  destruct (header_lookup h d) as [c |].
  - intros [E | Hin]; [subst p; exists h; left; reflexivity |].
    destruct (IH Hin) as [h' Hh']. exists h'. right. exact Hh'.
  - intro Hin. destruct (IH Hin) as [h' Hh']. exists h'. right. exact Hh'.
Qed.

Lemma resolve_columns_snd (d : list (string * string)) (j : nat) (hs : list cell) :
  map snd (resolve_columns d (enumerate_from j hs)) =
  flat_map (fun h => match header_lookup h d with Some c => [c] | None => [] end) hs.
Proof.
  revert j. induction hs as [| h hs IH]; intro j; cbn; [reflexivity |].
  destruct (header_lookup h d); cbn; rewrite IH; reflexivity.
Qed.

Lemma resolve_columns_fst (d : list (string * string)) (l : list (nat * cell)) :
  map fst (resolve_columns d l) =
  map fst (filter (fun ih => match header_lookup (snd ih) d with
                             | Some _ => true | None => false end) l).
Proof.
  induction l as [| [i h] l IH]; cbn; [reflexivity |].
  destruct (header_lookup h d); cbn; rewrite IH; reflexivity.
Qed.

Lemma resolve_columns_lookup (d : list (string * string)) (j idx : nat) (hs : list cell) :
  nat_lookup idx (resolve_columns d (enumerate_from j hs)) =
  if Nat.leb j idx then header_lookup (nth (idx - j) hs PyNone) d else None.
Proof.
  revert j. induction hs as [| h hs IH]; intro j; cbn.
  - destruct (Nat.leb j idx); [destruct (idx - j)%nat |]; reflexivity.
  - assert (Hrest : nat_lookup idx (resolve_columns d (enumerate_from (S j) hs)) =
                    if Nat.leb j idx then
                      (if Nat.eqb j idx then None
                       else header_lookup (nth (idx - j) (h :: hs) PyNone) d)
                    else None).
    { rewrite IH.
      destruct (Nat.leb_spec (S j) idx), (Nat.leb_spec j idx), (Nat.eqb_spec j idx);
        try lia; try reflexivity.
      replace (idx - j)%nat with (S (idx - S j)) by lia. reflexivity. }
    destruct (header_lookup h d) as [c |] eqn:Eh; cbn;
      destruct (Nat.eqb_spec j idx) as [<- | Hne].
    + rewrite Nat.leb_refl, Nat.sub_diag. cbn. symmetry. exact Eh.
    + rewrite Hrest. destruct (Nat.leb j idx); reflexivity.
    + rewrite Hrest, ?Nat.leb_refl, ?Nat.eqb_refl, ?Nat.sub_diag. cbn.
      rewrite ?Nat.eqb_refl, ?Eh. reflexivity.
    + rewrite Hrest. destruct (Nat.leb j idx); reflexivity.
Qed.

Lemma row_values_map (xty cols : list (nat * string)) (row : list cell) :
  Forall (fun p => (fst p < List.length row)%nat) cols ->
  row_values xty cols row =
  Ok (map (fun p => clean_value (nth (fst p) row PyNone) (nat_lookup (fst p) xty)) cols).
Proof.
  induction cols as [| [idx c] cols IH]; intro H; cbn; [reflexivity |].
  inversion H as [| ? ? Hidx Hrest]; subst. cbn in Hidx.
  rewrite (@nth_error_nth' cell row idx PyNone Hidx), IH by assumption. reflexivity.
Qed.

Lemma row_values_project (headers row : list cell) :
  row_processable headers row = true ->
  row_values (excel_column_types headers) (excel_to_db_columns headers) row =
  Ok (project_row headers row).
Proof.
  intro Hlen. rewrite row_values_map.
  - f_equal. unfold project_row, mapped_headers, is_mapped, excel_to_db_columns.
    rewrite <- (map_map fst (fun i => clean_value (nth i row PyNone)
                                         (nat_lookup i (excel_column_types headers)))).
    rewrite resolve_columns_fst, map_map.
    apply map_ext_in. intros [i h] Hin. apply filter_In in Hin as [Hin _].
    cbn [fst snd]. f_equal. unfold excel_column_types.
    rewrite resolve_columns_lookup. cbn [Nat.leb]. rewrite Nat.sub_0_r.
    destruct (enumerate_from_in 0 i h PyNone headers Hin) as [_ Hn].
    rewrite Nat.sub_0_r in Hn. rewrite Hn. reflexivity.
  - apply Forall_forall. intros p Hp. unfold row_processable in Hlen.
    rewrite forallb_forall in Hlen. apply Nat.ltb_lt, Hlen, Hp.
Qed.

Lemma processable_rows (headers : list cell) (data : list (list cell)) :
  processable headers data = true ->
  forall row, In row data ->
  row_values (excel_column_types headers) (excel_to_db_columns headers) row =
  Ok (project_row headers row).
Proof.
  intros Hp row Hrow. apply row_values_project.
  unfold processable in Hp. rewrite forallb_forall in Hp. apply Hp, Hrow.
Qed.

(** A row that [row_values] cleans has a cell at every position read. *)
Lemma row_values_ok_processable (headers row : list cell) (vs : list cell) :
  row_values (excel_column_types headers) (excel_to_db_columns headers) row = Ok vs ->
  row_processable headers row = true.
Proof.
  unfold row_processable. generalize (excel_to_db_columns headers) as cols. intro cols.
  revert vs. induction cols as [| [idx c] cols IH]; intros vs; cbn; [reflexivity |].
  destruct (nth_error row idx) eqn:En; [| discriminate].
  destruct (row_values _ cols row) as [vs' |] eqn:Er; [| discriminate]. intros _.
  apply andb_true_intro. split.
  - apply Nat.ltb_lt, nth_error_Some. rewrite En. discriminate.
  - apply (IH vs'). reflexivity.
Qed.

Lemma row_values_ok_project (headers row : list cell) (vs : list cell) :
  row_values (excel_column_types headers) (excel_to_db_columns headers) row = Ok vs ->
  vs = project_row headers row.
Proof.
  intro H. pose proof (row_values_ok_processable headers row vs H) as Hp.
  rewrite row_values_project in H by exact Hp. injection H as <-. reflexivity.
Qed.

(** Whatever the rows, the batches yielded hold, in file order, the
    cleaned rows of a prefix of the data rows. *)
Lemma batch_loop_prefix (cols : list string) (xdb xty : list (nat * string))
  (g : list cell -> list cell) (stop : option exn) (data rows : list (list cell)) :
  (forall row vs, row_values xty xdb row = Ok vs -> vs = g row) ->
  exists pending,
    app (List.concat (map snd (fst (batch_loop cols xdb xty stop data rows)))) pending =
    app rows (map g data).
Proof.
  intro Hg. revert rows. induction data as [| row data IH]; intro rows; cbn.
  - destruct stop; [exists rows; rewrite app_nil_r; reflexivity |].
    destruct rows as [| v vs]; [exists []; reflexivity |].
    exists []. cbn. rewrite !app_nil_r. reflexivity.
  - destruct (row_values xty xdb row) as [vals |] eqn:Er.
    + rewrite (Hg row vals Er).
      destruct (Nat.leb batch_size (List.length (app rows [g row]))).
      * destruct (IH []) as [pending Hp].
        destruct (batch_loop cols xdb xty stop data []) as [bs err]. cbn in Hp |- *.
        exists pending. rewrite <- app_assoc, Hp, <- app_assoc. reflexivity.
      * destruct (IH (app rows [g row])) as [pending Hp].
        exists pending. rewrite Hp, <- app_assoc. reflexivity.
    + exists (app rows (map g (row :: data))). reflexivity.
Qed.

Lemma process_excel_data_spec (load_workbook : string -> res sheet_rows) (file_path : string)
  (headers : list cell) (data : list (list cell)) :
  load_workbook file_path = Ok (headers :: data, None) ->
  processable headers data = true ->
  let r := process_excel_data load_workbook file_path in
  snd r = None /\
  Forall (fun b => fst b = db_columns headers) (fst r) /\
  List.concat (map snd (fst r)) = map (project_row headers) data /\
  Forall (fun b => List.length (snd b) = batch_size) (removelast (fst r)) /\
  last_batch_ok (fst r).
Proof.
  intros Hload Hp. unfold process_excel_data. rewrite Hload.
  exact (batch_loop_spec (db_columns headers) (excel_to_db_columns headers)
           (excel_column_types headers) (project_row headers) data []
           batch_size_pos (processable_rows headers data Hp)).
Qed.

Lemma db_columns_images (headers : list cell) : db_columns headers = mapped_images headers.
Proof. apply resolve_columns_snd. Qed.

Lemma mapped_headers_length (j : nat) (hs : list cell) :
  List.length (filter (fun ih => is_mapped (snd ih)) (enumerate_from j hs)) =
  List.length (mapped_images hs).
Proof.
  revert j. induction hs as [| h hs IH]; intro j; cbn; [reflexivity |].
  unfold is_mapped at 1. destruct (header_lookup h get_column_mapping); cbn; rewrite IH; reflexivity.
Qed.

Lemma twelve_thousand_batches (bs : list batch) :
  Forall (fun b => List.length (snd b) = batch_size) (removelast bs) ->
  last_batch_ok bs ->
  List.length (List.concat (map snd bs)) = 12345%nat ->
  map (fun b => List.length (snd b)) bs = [5000; 5000; 2345]%nat.
Proof.
  intros Hrl Hl Htot.
  assert (E1 : Z.of_nat batch_size = 5000%Z) by reflexivity.
  assert (E2 : Z.of_nat 5000 = 5000%Z) by reflexivity.
  assert (E3 : Z.of_nat 12345 = 12345%Z) by reflexivity.
  assert (E4 : Z.of_nat 2345 = 2345%Z) by reflexivity.
  destruct bs as [| b1 [| b2 [| b3 [| b4 bs]]]];
    unfold last_batch_ok in Hl; cbn [List.concat map rev removelast app] in *;
    rewrite ?length_app in Htot; cbn [List.length] in Htot.
  - lia.
  - lia.
  - inversion Hrl as [| ? ? H1 _]. lia.
  - inversion Hrl as [| ? ? H1 Hrl']. inversion Hrl' as [| ? ? H2 _].
    cbn [map]. repeat f_equal; apply Nat2Z.inj; lia.
  - inversion Hrl as [| ? ? H1 Hrl']. inversion Hrl' as [| ? ? H2 Hrl''].
    inversion Hrl'' as [| ? ? H5 _]. lia.
Qed.

(** C4, as stated, fails: a read-only sheet without a dimension record
    gives rows as long as their last cell, and a row with no cell under
    a mapped header stops the generator with [IndexError] before the
    pending batch is yielded.  Here the first data row is complete and
    is never yielded. *)
Lemma process_excel_data_batching_counterexample :
  process_excel_data
    (fun _ => Ok ([[PyStr "Year"; PyStr "City"]; [PyInt 2020; PyStr "Gent"]; [PyInt 2020]],
                  None)) "2020_FTS_dataset_en.xlsx" = ([], Some IndexError) /\
  project_row [PyStr "Year"; PyStr "City"] [PyInt 2020; PyStr "Gent"] =
    [PyInt 2020; PyStr "Gent"].
Proof. split; vm_compute; reflexivity. Qed.

(** C4 (amended). For a file that openpyxl reads to its end without
    error and whose data rows each have a cell at the position of every
    mapped header, the generator stops without an exception, every batch
    but the last holds exactly [batch_size] rows, the last one holds
    between 1 and [batch_size] rows, and the concatenation of the
    batches is the list of cleaned data rows in file order. *)
Theorem process_excel_data_batching (load_workbook : string -> res sheet_rows)
  (file_path : string) (headers : list cell) (data : list (list cell)) :
  load_workbook file_path = Ok (headers :: data, None) ->
  processable headers data = true ->
  snd (process_excel_data load_workbook file_path) = None /\
  Forall (fun b => List.length (snd b) = batch_size)
    (removelast (fst (process_excel_data load_workbook file_path))) /\
  last_batch_ok (fst (process_excel_data load_workbook file_path)) /\
  List.concat (map snd (fst (process_excel_data load_workbook file_path))) =
    map (project_row headers) data.
Proof.
  intros Hload Hp.
  destruct (process_excel_data_spec load_workbook file_path headers data Hload Hp)
    as (H1 & _ & H3 & H4 & H5).
  repeat split; assumption.
Qed.

Lemma process_excel_data_batching_witness :
  List.concat (map snd (fst (process_excel_data
    (fun _ => Ok ([PyStr "Year"; PyStr "Coordinator"; PyStr "Commitment consumed amount (EUR)";
                   PyStr "Project start date"; PyStr "Remarks"] ::
                  [[PyInt 2020; PyStr "Yes"; PyStr "1,000.00";
                    PyDateTime (mk_datetime 2020 1 15 0 0 0 0); PyStr "x"];
                   [PyInt 2020; PyStr "No"; PyStr ""; PyStr "-"];
                   [PyInt 2020; PyStr ""; PyStr "500"; PyNone]], None))
    "2020_FTS_dataset_en.xlsx"))) =
  [[PyInt 2020; PyBool true; PyFloat (Finite 100000 (-2)); PyStr "2020-01-15"];
   [PyInt 2020; PyBool false; PyNone; PyNone];
   [PyInt 2020; PyNone; PyFloat (Finite 500 0); PyNone]].
Proof.
  destruct (process_excel_data_batching
    (fun _ => Ok ([PyStr "Year"; PyStr "Coordinator"; PyStr "Commitment consumed amount (EUR)";
                   PyStr "Project start date"; PyStr "Remarks"] ::
                  [[PyInt 2020; PyStr "Yes"; PyStr "1,000.00";
                    PyDateTime (mk_datetime 2020 1 15 0 0 0 0); PyStr "x"];
                   [PyInt 2020; PyStr "No"; PyStr ""; PyStr "-"];
                   [PyInt 2020; PyStr ""; PyStr "500"; PyNone]], None))
    "2020_FTS_dataset_en.xlsx"
    [PyStr "Year"; PyStr "Coordinator"; PyStr "Commitment consumed amount (EUR)";
     PyStr "Project start date"; PyStr "Remarks"]
    [[PyInt 2020; PyStr "Yes"; PyStr "1,000.00"; PyDateTime (mk_datetime 2020 1 15 0 0 0 0);
      PyStr "x"];
     [PyInt 2020; PyStr "No"; PyStr ""; PyStr "-"];
     [PyInt 2020; PyStr ""; PyStr "500"; PyNone]]) as (_ & _ & _ & H);
    [reflexivity | vm_compute; reflexivity |].
  rewrite H. vm_compute. reflexivity.
Defined.

(** C5, as stated, fails: 12,345 data rows give the batches 5000, 5000
    and 2345 (12,345 = 5000 + 5000 + 2345), not 5000, 5000, 3345. *)
Lemma process_excel_data_12345_counterexample :
  map (fun b => List.length (snd b))
    (fst (process_excel_data (fun _ => Ok ([PyStr "Year"] :: repeat [PyInt 2020] 12345, None))
            "2020_FTS_dataset_en.xlsx")) <>
  [5000; 5000; 3345]%nat.
Proof.
  intro H. apply (f_equal (fun l => Nat.eqb (nth 2 l 0%nat) 3345)) in H.
  vm_compute in H. discriminate H.
Qed.

(** C5 (amended). Given 12,345 data rows that openpyxl reads without
    error, each with a cell at the position of every mapped header, and
    the batch size 5000, the generator produces exactly 3 batches of
    5000, 5000 and 2345 rows, in file order. *)
Theorem process_excel_data_12345 (load_workbook : string -> res sheet_rows)
  (file_path : string) (headers : list cell) (data : list (list cell)) :
  load_workbook file_path = Ok (headers :: data, None) ->
  processable headers data = true -> List.length data = 12345%nat ->
  map (fun b => List.length (snd b)) (fst (process_excel_data load_workbook file_path)) =
    [5000; 5000; 2345]%nat /\
  List.concat (map snd (fst (process_excel_data load_workbook file_path))) =
    map (project_row headers) data.
Proof.
  intros Hload Hp Hlen.
  destruct (process_excel_data_spec load_workbook file_path headers data Hload Hp)
    as (_ & _ & Hcat & Hrl & Hl).
  split; [| exact Hcat].
  apply twelve_thousand_batches; [exact Hrl | exact Hl |].
  rewrite Hcat, length_map. exact Hlen.
Qed.

Lemma process_excel_data_12345_witness :
  map (fun b => List.length (snd b))
    (fst (process_excel_data
            (fun _ => Ok ([PyStr "Year"; PyStr "Remarks"] ::
                          app (repeat [PyInt 2020; PyStr "x"] 6000) (repeat [PyInt 2021] 6345),
                          None))
            "2021_FTS_dataset_en.xlsx")) =
  [5000; 5000; 2345]%nat.
Proof.
  destruct (process_excel_data_12345
    (fun _ => Ok ([PyStr "Year"; PyStr "Remarks"] ::
                  app (repeat [PyInt 2020; PyStr "x"] 6000) (repeat [PyInt 2021] 6345), None))
    "2021_FTS_dataset_en.xlsx" [PyStr "Year"; PyStr "Remarks"]
    (app (repeat [PyInt 2020; PyStr "x"] 6000) (repeat [PyInt 2021] 6345)))
    as [H _]; [reflexivity | vm_compute; reflexivity | vm_compute; reflexivity | exact H].
Defined.

(** C6. The destination columns are computed from the header row alone:
    they are the ColumnMapping images of the mapped headers in header
    order, and every batch yielded, whatever the data rows and however
    the reading of the file ends, carries this one list.  The rows of
    the batches are, in file order, the cleaned data rows of a prefix of
    the file, each holding exactly one cell per mapped header, taken
    from that header's position; unmapped headers give neither a column
    nor a cell.  A file that cannot be opened, or whose sheet has no row
    at all, yields no batch. *)
Theorem process_excel_data_columns (load_workbook : string -> res sheet_rows)
  (file_path : string) :
  match load_workbook file_path with
  | Ok (headers :: data, stop) =>
      db_columns headers = mapped_images headers /\
      Forall (fun b => fst b = mapped_images headers)
        (fst (process_excel_data load_workbook file_path)) /\
      (exists pending,
         app (List.concat (map snd (fst (process_excel_data load_workbook file_path))))
           pending =
         map (project_row headers) data) /\
      Forall (fun row => List.length row = List.length (mapped_images headers))
        (List.concat (map snd (fst (process_excel_data load_workbook file_path))))
  | _ => fst (process_excel_data load_workbook file_path) = []
  end.
Proof.
  destruct (load_workbook file_path) as [[[| headers data] stop] | e] eqn:Hload;
    [unfold process_excel_data; rewrite Hload; reflexivity | |
     unfold process_excel_data; rewrite Hload; reflexivity].
  assert (Hpre : exists pending,
     app (List.concat (map snd (fst (process_excel_data load_workbook file_path)))) pending =
     map (project_row headers) data).
  { unfold process_excel_data. rewrite Hload.
    apply (batch_loop_prefix _ _ _ (project_row headers) stop data []).
    apply row_values_ok_project. }
  split; [apply db_columns_images |].
  split; [| split; [exact Hpre |]].
  - rewrite <- db_columns_images. unfold process_excel_data. rewrite Hload.
    apply batch_loop_columns.
  - destruct Hpre as [pending Hpre]. apply Forall_forall. intros row Hrow.
    assert (Hin : In row (map (project_row headers) data))
      by (rewrite <- Hpre; apply in_or_app; left; exact Hrow).
    apply in_map_iff in Hin as [r [<- _]].
    unfold project_row. rewrite length_map. apply mapped_headers_length.
Qed.

Lemma process_excel_data_columns_witness :
  fst (hd ([], []) (fst (process_excel_data
    (fun _ => Ok ([PyStr "Year"; PyStr "Unknown header"; PyNone; PyStr "Coordinator"] ::
                  [[PyInt 2020; PyStr "x"; PyStr "y"; PyStr "Yes"]], None))
    "2021_FTS_dataset_en.xlsx"))) = ["year"; "coordinator"] /\
  exists pending,
    app (List.concat (map snd (fst (process_excel_data
      (fun _ => Ok ([PyStr "Year"; PyStr "Unknown"] :: [[PyInt 2020]; [PyInt 2021]], None))
      "2021_FTS_dataset_en.xlsx")))) pending = [[PyInt 2020]; [PyInt 2021]].
Proof.
  split; [vm_compute; reflexivity |].
  pose proof (process_excel_data_columns
    (fun _ => Ok ([PyStr "Year"; PyStr "Unknown"] :: [[PyInt 2020]; [PyInt 2021]], None))
    "2021_FTS_dataset_en.xlsx") as Hc.
  cbv beta iota in Hc. destruct Hc as (_ & _ & [pending H] & _).
  exists pending. rewrite H. vm_compute. reflexivity.
Defined.

(* ================================================================== *)
(** * Properties of the orchestration *)

Lemma row_values_raise (xty cols : list (nat * string)) (row : list cell) (e : exn) :
  row_values xty cols row = Raise e -> e = IndexError.
Proof.
  induction cols as [| [idx c] cols IH]; cbn; [discriminate |].
  destruct (nth_error row idx); [| congruence].
  destruct (row_values xty cols row); [discriminate | intro H; injection H as <-; auto].
Qed.

Lemma batch_loop_raise (cols : list string) (xdb xty : list (nat * string))
  (stop : option exn) (data rows : list (list cell)) (e : exn) :
  snd (batch_loop cols xdb xty stop data rows) = Some e -> stop = Some e \/ e = IndexError.
Proof.
  revert rows. induction data as [| row data IH]; intro rows; cbn.
  - destruct stop as [e' |]; [intro H; left; exact H |]. destruct rows; discriminate.
  - destruct (row_values xty xdb row) as [vals | e'] eqn:Er.
    + destruct (Nat.leb batch_size (List.length (app rows [vals]))).
      * specialize (IH []). destruct (batch_loop cols xdb xty stop data []) as [bs err].
        exact IH.
      * apply IH.
    + intro H. injection H as <-. right. exact (row_values_raise _ _ _ _ Er).
Qed.

Lemma process_excel_data_raise (load_workbook : string -> res sheet_rows) (file_path : string)
  (e : exn) :
  sheet_catchable (load_workbook file_path) ->
  snd (process_excel_data load_workbook file_path) = Some e -> exn_is_Exception e = true.
Proof.
  unfold process_excel_data.
  destruct (load_workbook file_path) as [[sheet stop] | e']; cbn.
  - intro Hc. destruct sheet as [| headers data].
    + intro H. injection H as <-. destruct stop; [exact Hc | reflexivity].
    + intro H. destruct (batch_loop_raise _ _ _ _ _ _ _ H) as [-> | ->]; [exact Hc | reflexivity].
  - intros Hc H. injection H as <-. exact Hc.
Qed.

Lemma catchable_ret {A : Type} (a : A) : catchable (ret a).
Proof. exact I. Qed.

Lemma catchable_emit (ev : event) : catchable (emit ev).
Proof. exact I. Qed.

Lemma catchable_lift {A : Type} (r : res A) : res_catchable r -> catchable (lift r).
Proof. auto. Qed.

Lemma catchable_bind {A B : Type} (m : M A) (f : A -> M B) :
  catchable m -> (forall a, catchable (f a)) -> catchable (bind m f).
Proof.
  unfold catchable, bind. destruct m as [[a | e] t]; cbn; intros Hm Hf.
  - specialize (Hf a). destruct (f a) as [r t']. exact Hf.
  - exact Hm.
Qed.

Lemma years_range_in (current_year y : Z) :
  In y (years_range current_year) <-> (2007 <= y <= current_year)%Z.
Proof.
  unfold years_range. rewrite in_map_iff. split.
  - intros [i [<- Hi]]. apply in_seq in Hi. lia.
  - intro Hy. exists (Z.to_nat (y - 2007)). split.
    + rewrite Z2Nat.id by lia. lia.
    + apply in_seq. split; [lia |]. cbn. apply Z2Nat.inj_lt; lia.
Qed.

Lemma years_range_sorted (current_year : Z) : Sorted Z.lt (years_range current_year).
Proof.
  unfold years_range. generalize 0%nat as a.
  induction (Z.to_nat (current_year + 1 - 2007)) as [| n IH]; intro a;
    cbn [seq map]; [constructor |].
  constructor; [apply IH |]. destruct n; cbn [seq map]; constructor. lia.
Qed.

Lemma assoc_lookup_app {A : Type} (k : string) (l1 l2 : list (string * A)) :
  assoc_lookup k (app l1 l2) =
  match assoc_lookup k l1 with Some v => Some v | None => assoc_lookup k l2 end.
Proof.
  induction l1 as [| [k' v'] l1 IH]; cbn; [reflexivity |].
  destruct (String.eqb k' k); [reflexivity | exact IH].
Qed.

Lemma assoc_lookup_None {A : Type} (k : string) (l : list (string * A)) :
  assoc_lookup k l = None <-> Forall (fun kv => fst kv <> k) l.
Proof.
  induction l as [| [k' v'] l IH]; cbn; [split; constructor |].
  destruct (String.eqb_spec k' k) as [-> | Hne].
  - split; [discriminate | intro H; inversion H as [| ? ? Hk _]; cbn in Hk; contradiction].
  - rewrite IH. split; [intro H; constructor; assumption | intro H; inversion H; assumption].
Qed.

Lemma assoc_lookup_filter_absent (k : string) (environ l : env) :
  assoc_lookup k environ = None ->
  assoc_lookup k (filter (fun kv => match assoc_lookup (fst kv) environ with
                                    | Some _ => false | None => true end) l) =
  assoc_lookup k l.
Proof.
  intro Hk. induction l as [| [k' v'] l IH]; cbn; [reflexivity |].
  destruct (String.eqb_spec k' k) as [-> | Hne].
  - rewrite Hk. cbn. rewrite String.eqb_refl. reflexivity.
  - destruct (assoc_lookup k' environ); cbn; [exact IH |].
    apply String.eqb_neq in Hne. rewrite Hne. exact IH.
Qed.

(** A variable defined neither in the process environment nor in the
    [.env] file is absent after [load_dotenv()]. *)
Lemma load_dotenv_absent (environ dotenv : env) (k : string) :
  assoc_lookup k environ = None -> assoc_lookup k dotenv = None ->
  os_getenv (load_dotenv environ dotenv) k = None.
Proof.
  intros He Hd. unfold os_getenv, load_dotenv.
  rewrite assoc_lookup_app, He, assoc_lookup_filter_absent by exact He.
  apply assoc_lookup_None. apply assoc_lookup_None in Hd. apply Forall_rev. exact Hd.
Qed.

Lemma try_except_prefix {A : Type} (m : M A) (handler : exn -> M A) :
  exists t, snd (try_except m handler) = app (snd m) t.
Proof.
  unfold try_except. destruct m as [[a | e] t]; cbn.
  - exists []. rewrite app_nil_r. reflexivity.
  - destruct (exn_is_Exception e); [destruct (handler e) as [r t']; exists t'; reflexivity |].
    exists []. rewrite app_nil_r. reflexivity.
Qed.

Section Orchestration.

Variable pg_connect : string -> string -> string -> string -> string -> res unit.
Variable pg_create_table : res unit.
Variable make_temp_dir : res unit.
Variable http_get : Z -> res response.
Variable save_file : Z -> string -> res unit.
Variable load_workbook : string -> res sheet_rows.
Variable pg_insert : list string -> list (list cell) -> res unit.

Let year_step' := year_step http_get save_file load_workbook pg_insert.
Let year_body' := year_body http_get save_file load_workbook pg_insert.
Let years_loop' := years_loop http_get save_file load_workbook pg_insert.

Lemma year_body_starts (year : Z) :
  exists t, snd (year_body' year) = EvGet year :: t.
Proof.
  unfold year_body', year_body, bind at 1. cbn [emit].
  match goal with |- context [let (r, t') := ?x in _] => destruct x as [r t'] end.
  exists t'. reflexivity.
Qed.

Lemma year_body_catchable (year : Z) :
  (forall y, res_catchable (http_get y)) ->
  (forall y c, res_catchable (save_file y c)) ->
  (forall c, sheet_catchable (load_workbook c)) ->
  (forall cols rows, res_catchable (pg_insert cols rows)) ->
  catchable (year_body' year).
Proof.
  intros Hget Hsave Hload Hins. unfold year_body', year_body.
  apply catchable_bind; [apply catchable_emit | intro u].
  apply catchable_bind; [apply catchable_lift, Hget | intro resp].
  destruct (status_code resp =? 200)%Z; [| apply catchable_emit].
  apply catchable_bind; [apply catchable_lift, Hsave | intro u'].
  apply catchable_bind; [apply catchable_emit | intro u''].
  unfold insert_data.
  destruct (process_excel_data load_workbook (content resp)) as [bs err] eqn:Ep.
  apply catchable_bind.
  - clear Ep. induction bs as [| [cols rows] bs IH]; cbn [insert_batches]; [apply catchable_ret |].
    apply catchable_bind; [| intro; exact IH].
    unfold insert_data_batch.
    apply catchable_bind; [apply catchable_lift, Hins | intro; apply catchable_emit].
  - intro u3. destruct err as [e |]; [| apply catchable_ret].
    unfold catchable, raise. cbn. apply (process_excel_data_raise load_workbook (content resp));
      [apply Hload | rewrite Ep; reflexivity].
Qed.

Lemma year_step_ok (year : Z) :
  catchable (year_body' year) -> fst (year_step' year) = Ok tt.
Proof.
  unfold year_step', year_step, try_except, catchable. fold year_body'.
  destruct (year_body' year) as [[[] | e] t]; cbn; [reflexivity |].
  intro H. rewrite H. reflexivity.
Qed.

Lemma years_loop_ok (ys : list Z) :
  (forall y, fst (year_step' y) = Ok tt) ->
  years_loop' ys = (Ok tt, List.concat (map (fun y => snd (year_step' y)) ys)).
Proof.
  intro Hok. induction ys as [| y ys IH]; [reflexivity |].
  unfold years_loop'. cbn [years_loop]. fold years_loop'. fold year_step'.
  specialize (Hok y). unfold bind. cbn [map List.concat].
  destruct (year_step' y) as [r t]. cbn in Hok |- *. subst r.
  rewrite IH. reflexivity.
Qed.

(** C7 (amended). Once the connection is opened, the table created and
    the temporary directory created, [main] visits the years 2007 to the
    current year in ascending order.  An exception deriving from
    [Exception] raised in a year's fetch, save, transform or load is
    caught at the year boundary and logged ([EvYearError]), and the loop
    goes on with the next year; when every such exception derives from
    [Exception], every year runs to its end, the run ends normally and
    the connection is closed, the trace of the run being the
    concatenation of the traces of the years, each opening with the
    request for that year.  An exception outside the [Exception]
    hierarchy is not caught: the year and the loop stop there, no later
    year is requested, and [main] closes the connection and raises it. *)
Theorem main_year_isolation (environ dotenv : env) (current_year : Z) :
  fst (connect_to_database pg_connect environ dotenv) = Ok tt ->
  pg_create_table = Ok tt -> make_temp_dir = Ok tt ->
  (forall y, In y (years_range current_year) <-> (2007 <= y <= current_year)%Z) /\
  Sorted Z.lt (years_range current_year) /\
  (forall (y : Z) (ys : list Z) (e : exn) (t : list event),
     year_body' y = (Raise e, t) -> exn_is_Exception e = true ->
     year_step' y = (Ok tt, app t [EvYearError y e]) /\
     years_loop' (y :: ys) =
       (fst (years_loop' ys), app t (EvYearError y e :: snd (years_loop' ys)))) /\
  ((forall y, res_catchable (http_get y)) ->
   (forall y c, res_catchable (save_file y c)) ->
   (forall c, sheet_catchable (load_workbook c)) ->
   (forall cols rows, res_catchable (pg_insert cols rows)) ->
   main pg_connect pg_create_table make_temp_dir http_get save_file load_workbook pg_insert
     environ dotenv current_year =
   (Ok tt, app (snd (connect_to_database pg_connect environ dotenv))
             (EvCreateTable ::
              app (List.concat (map (fun y => snd (year_step' y)) (years_range current_year)))
                  [EvClose])) /\
   (forall y, fst (year_step' y) = Ok tt /\ exists t, snd (year_step' y) = EvGet y :: t)) /\
  (forall (y : Z) (ys : list Z) (e : exn) (t : list event),
     year_body' y = (Raise e, t) -> exn_is_Exception e = false ->
     year_step' y = (Raise e, t) /\ years_loop' (y :: ys) = (Raise e, t)) /\
  (forall (e : exn) (t : list event),
     years_loop' (years_range current_year) = (Raise e, t) -> exn_is_Exception e = false ->
     main pg_connect pg_create_table make_temp_dir http_get save_file load_workbook pg_insert
       environ dotenv current_year =
     (Raise e, app (snd (connect_to_database pg_connect environ dotenv))
                 (EvCreateTable :: app t [EvClose]))).
Proof.
  intros Hconn Hcreate Htmp.
  split; [apply years_range_in |]. split; [apply years_range_sorted |].
  split; [| split; [| split]].
  - intros y ys e t Hb He.
    assert (Hs : year_step' y = (Ok tt, app t [EvYearError y e])).
    { unfold year_step', year_step. fold year_body'. rewrite Hb. unfold try_except.
      rewrite He. reflexivity. }
    split; [exact Hs |].
    unfold years_loop'. cbn [years_loop]. fold year_step'. fold years_loop'.
    rewrite Hs. unfold bind. destruct (years_loop' ys) as [r t']. cbn.
    rewrite <- app_assoc. reflexivity.
  - intros Hget Hsave Hload Hins.
    assert (Hok : forall y, fst (year_step' y) = Ok tt)
      by (intro y; apply year_step_ok, year_body_catchable; assumption).
    split.
    + unfold main. destruct (connect_to_database pg_connect environ dotenv) as [r t].
      cbn in Hconn. subst r.
      unfold create_table. rewrite Hcreate, Htmp. cbn.
      pose proof (years_loop_ok (years_range current_year) Hok) as Hl.
      unfold years_loop' in Hl. rewrite Hl. reflexivity.
    + intro y. split; [apply Hok |].
      destruct (year_body_starts y) as [t Ht].
      destruct (try_except_prefix (year_body' y) (fun e => emit (EvYearError y e))) as [t' Ht'].
      exists (app t t'). unfold year_step', year_step. fold year_body'. rewrite Ht', Ht.
      reflexivity.
  - intros y ys e t Hb He.
    assert (Hs : year_step' y = (Raise e, t)).
    { unfold year_step', year_step. fold year_body'. rewrite Hb. unfold try_except.
      rewrite He. reflexivity. }
    split; [exact Hs |].
    unfold years_loop'. cbn [years_loop]. fold year_step'. rewrite Hs. reflexivity.
  - intros e t Hl He. unfold main.
    destruct (connect_to_database pg_connect environ dotenv) as [r tc].
    cbn in Hconn. subst r.
    unfold create_table. rewrite Hcreate, Htmp. cbn.
    unfold years_loop' in Hl. rewrite Hl. cbn. rewrite He. reflexivity.
Qed.

(** C8. When the request for a year answers with a status other than
    200, that year raises nothing and makes no second request: its trace
    is the request and the logged failure, with no save, no workbook
    load and no insert, and the loop goes on with the next year. *)
Theorem year_step_download_failed (year : Z) (resp : response) :
  http_get year = Ok resp -> status_code resp <> 200%Z ->
  year_step' year = (Ok tt, [EvGet year; EvDownloadFailed year (status_code resp)]) /\
  (forall ys, years_loop' (year :: ys) =
     (fst (years_loop' ys),
      EvGet year :: EvDownloadFailed year (status_code resp) :: snd (years_loop' ys))).
Proof.
  intros Hget Hst.
  assert (Hstep : year_step' year =
                  (Ok tt, [EvGet year; EvDownloadFailed year (status_code resp)])).
  { unfold year_step', year_step, year_body, try_except. cbn [bind emit lift].
    rewrite Hget. cbn [bind lift].
    destruct (Z.eqb_spec (status_code resp) 200) as [E | _]; [contradiction |].
    reflexivity. }
  split; [exact Hstep |].
  intro ys. unfold years_loop'. cbn [years_loop]. fold year_step'. fold years_loop'.
  rewrite Hstep. unfold bind. cbn.
  destruct (years_loop' ys) as [r t]. reflexivity.
Qed.

(** C9. If one of [DB_NAME], [DB_USER], [DB_PASSWORD] is set neither in
    the process environment nor in the [.env] file, [connect_to_database]
    raises [ValueError] before any connection attempt, and [main] only
    logs the error: no table creation, no request for any year, nothing
    to close.  [DB_HOST] and [DB_PORT] default to [localhost] and [5432]
    when they are set nowhere. *)
Theorem connect_to_database_credentials :
  (forall (environ dotenv : env) (current_year : Z) (k : string),
     In k ["DB_NAME"; "DB_USER"; "DB_PASSWORD"] ->
     assoc_lookup k environ = None -> assoc_lookup k dotenv = None ->
     connect_to_database pg_connect environ dotenv = (Raise ValueError, []) /\
     main pg_connect pg_create_table make_temp_dir http_get save_file load_workbook pg_insert
       environ dotenv current_year = (Ok tt, [EvDbError ValueError])) /\
  (forall (environ dotenv : env) (n u p : string),
     os_getenv (load_dotenv environ dotenv) "DB_NAME" = Some n ->
     os_getenv (load_dotenv environ dotenv) "DB_USER" = Some u ->
     os_getenv (load_dotenv environ dotenv) "DB_PASSWORD" = Some p ->
     n <> "" -> u <> "" -> p <> "" ->
     assoc_lookup "DB_HOST" environ = None -> assoc_lookup "DB_HOST" dotenv = None ->
     assoc_lookup "DB_PORT" environ = None -> assoc_lookup "DB_PORT" dotenv = None ->
     connect_to_database pg_connect environ dotenv =
       (pg_connect "localhost" "5432" n u p, [EvConnect "localhost" "5432" n u p])).
Proof.
  split.
  - intros environ dotenv current_year k Hin He Hd.
    pose proof (load_dotenv_absent environ dotenv k He Hd) as Hk.
    set (E := load_dotenv environ dotenv) in *.
    assert (Hf : forallb opt_truthy [os_getenv E "DB_NAME"; os_getenv E "DB_USER";
                                     os_getenv E "DB_PASSWORD"] = false).
    { destruct (forallb opt_truthy _) eqn:Ef; [| reflexivity].
      rewrite forallb_forall in Ef. exfalso.
      assert (Hn : In None [os_getenv E "DB_NAME"; os_getenv E "DB_USER";
                            os_getenv E "DB_PASSWORD"]).
      { rewrite <- Hk. change [os_getenv E "DB_NAME"; os_getenv E "DB_USER";
                               os_getenv E "DB_PASSWORD"]
                          with (map (os_getenv E) ["DB_NAME"; "DB_USER"; "DB_PASSWORD"]).
        apply in_map. exact Hin. }
      specialize (Ef None Hn). discriminate. }
    assert (Hc : connect_to_database pg_connect environ dotenv = (Raise ValueError, [])).
    { unfold connect_to_database. fold E. cbv zeta. rewrite Hf. reflexivity. }
    split; [exact Hc |].
    unfold main. rewrite Hc. reflexivity.
  - intros environ dotenv n u p Hn Hu Hp Hn' Hu' Hp' Hh1 Hh2 Hp1 Hp2.
    pose proof (load_dotenv_absent environ dotenv _ Hh1 Hh2) as Hhost.
    pose proof (load_dotenv_absent environ dotenv _ Hp1 Hp2) as Hport.
    unfold connect_to_database, getenv_default. cbv zeta.
    rewrite Hn, Hu, Hp, Hhost, Hport. cbn [forallb opt_truthy opt_get].
    apply String.eqb_neq in Hn', Hu', Hp'. rewrite Hn', Hu', Hp'. reflexivity.
Qed.

End Orchestration.

(** C7, as stated, fails: [except Exception] does not catch a
    [KeyboardInterrupt] raised while the 2007 file is fetched; the run
    stops, the connection is closed and 2008 is never requested. *)
Lemma main_keyboard_interrupt_counterexample :
  main (fun _ _ _ _ _ => Ok tt) (Ok tt) (Ok tt)
    (fun y => if (y =? 2007)%Z then Raise KeyboardInterrupt else Ok (mk_response 200 ""))
    (fun _ _ => Ok tt) (fun _ => Ok ([], None)) (fun _ _ => Ok tt)
    [("DB_NAME", "fts"); ("DB_USER", "scraper"); ("DB_PASSWORD", "secret")] [] 2008 =
  (Raise KeyboardInterrupt,
   [EvConnect "localhost" "5432" "fts" "scraper" "secret"; EvCreateTable; EvGet 2007; EvClose]).
Proof. vm_compute. reflexivity. Qed.

Lemma main_year_isolation_witness :
  main (fun _ _ _ _ _ => Ok tt) (Ok tt) (Ok tt)
    (fun y => if (y =? 2007)%Z then Raise (mk_exn "ConnectionError" true)
              else Ok (mk_response 404 ""))
    (fun _ _ => Ok tt) (fun _ => Ok ([], None)) (fun _ _ => Ok tt)
    [("DB_NAME", "fts"); ("DB_USER", "scraper"); ("DB_PASSWORD", "secret")] [] 2008 =
  (Ok tt,
   [EvConnect "localhost" "5432" "fts" "scraper" "secret"; EvCreateTable;
    EvGet 2007; EvYearError 2007 (mk_exn "ConnectionError" true);
    EvGet 2008; EvDownloadFailed 2008 404; EvClose]).
Proof.
  destruct (main_year_isolation (fun _ _ _ _ _ => Ok tt) (Ok tt) (Ok tt)
    (fun y => if (y =? 2007)%Z then Raise (mk_exn "ConnectionError" true)
              else Ok (mk_response 404 ""))
    (fun _ _ => Ok tt) (fun _ => Ok ([], None)) (fun _ _ => Ok tt)
    [("DB_NAME", "fts"); ("DB_USER", "scraper"); ("DB_PASSWORD", "secret")] [] 2008)
    as (_ & _ & _ & Hall & _ & _); [vm_compute; reflexivity | reflexivity | reflexivity |].
  destruct Hall as [H _].
  - intro y. destruct (y =? 2007)%Z; simpl; auto.
  - intros y c. exact I.
  - intro c. exact I.
  - intros cols rows. exact I.
  - rewrite H. vm_compute. reflexivity.
Defined.

Lemma year_step_download_failed_witness :
  year_step (fun _ => Ok (mk_response 404 "")) (fun _ _ => Ok tt) (fun _ => Ok ([], None))
    (fun _ _ => Ok tt) 2010 =
  (Ok tt, [EvGet 2010; EvDownloadFailed 2010 404]).
Proof.
  destruct (year_step_download_failed (fun _ => Ok (mk_response 404 "")) (fun _ _ => Ok tt)
    (fun _ => Ok ([], None)) (fun _ _ => Ok tt) 2010 (mk_response 404 "")) as [H _].
  - reflexivity.
  - simpl. lia.
  - exact H.
Defined.

Lemma connect_to_database_credentials_witness :
  main (fun _ _ _ _ _ => Ok tt) (Ok tt) (Ok tt) (fun _ => Ok (mk_response 200 ""))
    (fun _ _ => Ok tt) (fun _ => Ok ([], None)) (fun _ _ => Ok tt)
    [("DB_USER", "scraper"); ("DB_PASSWORD", "secret")] [("DB_USER", "other")] 2024 =
  (Ok tt, [EvDbError ValueError]) /\
  connect_to_database (fun _ _ _ _ _ => Ok tt) []
    [("DB_NAME", "fts"); ("DB_USER", "scraper"); ("DB_PASSWORD", "secret")] =
  (Ok tt, [EvConnect "localhost" "5432" "fts" "scraper" "secret"]).
Proof.
  destruct (connect_to_database_credentials (fun _ _ _ _ _ => Ok tt) (Ok tt) (Ok tt)
    (fun _ => Ok (mk_response 200 "")) (fun _ _ => Ok tt) (fun _ => Ok ([], None)) (fun _ _ => Ok tt))
    as [H1 H2].
  split.
  - apply (H1 _ _ 2024%Z "DB_NAME"); [simpl; auto | reflexivity | reflexivity].
  - apply (H2 _ _ "fts" "scraper" "secret"); try reflexivity; discriminate.
Defined.


(* ================================================================== *)
(** * Further properties of the program *)

(** ** Cleaning of cell values and the destination columns *)

Lemma opt_str_eqb_true (o : option string) (s : string) :
  opt_str_eqb o s = true <-> o = Some s.
Proof.
  destruct o as [s' |]; cbn; [| split; discriminate].
  rewrite String.eqb_eq. split; [intros -> | intro H; injection H]; auto.
Qed.

Lemma opt_str_eqb_false (o : option string) (s : string) :
  o <> Some s -> opt_str_eqb o s = false.
Proof.
  intro H. destruct (opt_str_eqb o s) eqn:E; [| reflexivity].
  apply opt_str_eqb_true in E. contradiction.
Qed.

Lemma append_String_nonempty (a b : string) (x : ascii) : a ++ String x b <> "".
Proof. destruct a; discriminate. Qed.

Lemma strftime_ymd_not_dash (dt : datetime) :
  String.eqb (strftime_ymd dt) "" = false /\ String.eqb (strftime_ymd dt) "-" = false.
Proof.
  unfold strftime_ymd.
  generalize (zero_pad 4 (dt_year dt)) (zero_pad 2 (dt_month dt)) (zero_pad 2 (dt_day dt)).
  intros a b c. split; apply String.eqb_neq.
  - apply append_String_nonempty.
  - destruct a as [| x a]; cbn.
    + intro H. injection H as H. revert H. apply append_String_nonempty.
    + intro H. injection H as _ H. revert H. apply append_String_nonempty.
Qed.

(** [clean_value] of a [str] in a numeric column, the empty string
    included. *)
Lemma clean_value_numeric_str (s : string) :
  clean_value (PyStr s) (Some "numeric") =
  match py_float (remove_commas s) with Some f => PyFloat f | None => PyNone end.
Proof.
  unfold clean_value. cbn.
  destruct (String.eqb_spec s "") as [-> | _]; reflexivity.
Qed.

Lemma remove_commas_comma (s1 s2 : string) :
  remove_commas (s1 ++ String "," s2) = remove_commas (s1 ++ s2).
Proof.
  induction s1 as [| c s1 IH]; cbn; [reflexivity |].
  rewrite IH. reflexivity.
Qed.

(** Decimal digits of [str(n)]. *)
Lemma digit_val_char (k : nat) : (k < 10)%nat -> digit_val (digit_char k) = Z.of_nat k.
Proof.
  intro Hk. unfold digit_val, digit_char.
  rewrite nat_ascii_embedding by lia. f_equal. lia.
Qed.

Lemma is_digit_char (k : nat) : (k < 10)%nat -> is_digit (digit_char k) = true.
Proof.
  intro Hk. unfold is_digit, digit_char.
  rewrite nat_ascii_embedding by lia.
  apply andb_true_intro. split; apply Nat.leb_le; lia.
Qed.

Lemma digits_value_app (l1 l2 : list ascii) :
  digits_value (app l1 l2) =
  fold_left (fun acc c => acc * 10 + digit_val c)%Z l2 (digits_value l1).
Proof. unfold digits_value. apply fold_left_app. Qed.

Lemma dec_string_fuel_digits (fuel n : nat) (acc : string) :
  (n < fuel)%nat ->
  exists ds, list_ascii_of_string (dec_string_fuel fuel n acc) = app ds (list_ascii_of_string acc)
    /\ ds <> [] /\ Forall (fun c => is_digit c = true) ds /\ digits_value ds = Z.of_nat n.
Proof.
  revert n acc. induction fuel as [| fuel IH]; intros n acc Hn; [lia |].
  cbn [dec_string_fuel].
  assert (Hm : (n mod 10 < 10)%nat) by (apply Nat.mod_upper_bound; lia).
  destruct (Nat.ltb_spec n 10) as [Hlt | Hge].
  - exists [digit_char (n mod 10)]. split; [reflexivity |].
    split; [discriminate |]. split; [constructor; [apply is_digit_char; exact Hm | constructor] |].
    unfold digits_value. cbn [fold_left]. rewrite digit_val_char by exact Hm.
    rewrite Nat.mod_small by exact Hlt. reflexivity.
  - destruct (IH (n / 10)%nat (String (digit_char (n mod 10)) acc)) as (ds & Hds & Hne & Hdig & Hval).
    { assert (n / 10 < n)%nat by (apply Nat.div_lt; lia). lia. }
    exists (app ds [digit_char (n mod 10)]). cbn [list_ascii_of_string] in Hds. rewrite Hds, <- app_assoc.
    split; [reflexivity |]. split; [destruct ds; [contradiction | discriminate] |].
    split; [apply Forall_app; split; [exact Hdig | constructor; [apply is_digit_char; exact Hm | constructor]] |].
    rewrite digits_value_app, Hval. cbn [fold_left]. rewrite digit_val_char by exact Hm.
    rewrite (Nat.div_mod_eq n 10) at 3. lia.
Qed.

Lemma dec_string_digits (n : nat) :
  exists ds, list_ascii_of_string (dec_string n) = ds /\ ds <> [] /\
    Forall (fun c => is_digit c = true) ds /\ digits_value ds = Z.of_nat n.
Proof.
  destruct (dec_string_fuel_digits (S n) n "" (Nat.lt_succ_diag_r n)) as (ds & H & Hrest).
  exists ds. rewrite app_nil_r in H. split; [exact H | exact Hrest].
Qed.

Lemma digit_not_space (c : ascii) : is_digit c = true -> is_py_space c = false.
Proof.
  unfold is_digit, is_py_space. intro H. apply andb_prop in H as [H1 H2].
  apply Nat.leb_le in H1, H2.
  destruct (Nat.eqb_spec (nat_of_ascii c) 32); [lia |].
  destruct (Nat.leb_spec 9 (nat_of_ascii c)), (Nat.leb_spec (nat_of_ascii c) 13); cbn; lia.
Qed.

Lemma digits_take (ds : list ascii) :
  Forall (fun c => is_digit c = true) ds -> take_digits ds = (ds, []).
Proof.
  induction 1 as [| c ds Hc _ IH]; cbn; [reflexivity |]. rewrite Hc, IH. reflexivity.
Qed.

Lemma digit_not_underscore (c : ascii) : is_digit c = true -> Ascii.eqb c "_" = false.
Proof.
  intro H. destruct (Ascii.eqb_spec c "_") as [-> | _]; [discriminate H | reflexivity].
Qed.

Lemma digit_not_comma (c : ascii) : is_digit c = true -> Ascii.eqb c "," = false.
Proof.
  intro H. destruct (Ascii.eqb_spec c ",") as [-> | _]; [discriminate H | reflexivity].
Qed.

Lemma digit_lower (c : ascii) : is_digit c = true -> lower c = c.
Proof.
  unfold is_digit, lower. intro H. apply andb_prop in H as [H1 H2].
  apply Nat.leb_le in H1, H2.
  destruct (Nat.leb_spec 65 (nat_of_ascii c)); [lia | reflexivity].
Qed.

Lemma digit_first_not_letter (c : ascii) (l : list ascii) (s : string) (x : ascii) :
  is_digit c = true -> is_digit x = false -> String.eqb (string_of_list_ascii (map lower (c :: l))) (String x s) = false.
Proof.
  intros Hc Hx. apply String.eqb_neq. cbn. rewrite digit_lower by exact Hc.
  intro E. injection E as <- _. congruence.
Qed.

Lemma remove_commas_digits (s : string) :
  Forall (fun c => is_digit c = true) (list_ascii_of_string s) -> remove_commas s = s.
Proof.
  induction s as [| c s IH]; cbn; intro H; [reflexivity |].
  inversion H as [| ? ? Hc Hs]; subst.
  rewrite digit_not_comma by exact Hc. rewrite IH by exact Hs. reflexivity.
Qed.

Lemma header_lookup_In (h : cell) (d : list (string * string)) (c : string) :
  header_lookup h d = Some c -> exists s, h = PyStr s /\ In (s, c) d.
Proof.
  destruct h as [| s | | | | | | |]; cbn; try discriminate.
  intro H. exists s. split; [reflexivity |].
  induction d as [| [k v] d IH]; cbn in H |- *; [discriminate |].
  destruct (String.eqb_spec k s) as [-> | _]; [injection H as ->; left; reflexivity |].
  right. apply IH, H.
Qed.

Lemma nodupb_NoDup (l : list string) : nodupb l = true -> NoDup l.
Proof.
  induction l as [| s l IH]; cbn; intro H; [constructor |].
  apply andb_prop in H as [H1 H2]. constructor; [| apply IH, H2].
  intro Hin. apply negb_true_iff in H1. rewrite <- not_true_iff_false in H1.
  apply H1, existsb_exists. exists s. split; [exact Hin | apply String.eqb_refl].
Qed.

Lemma In_snd_inj {A B : Type} (d : list (A * B)) (a1 a2 : A) (b : B) :
  NoDup (map snd d) -> In (a1, b) d -> In (a2, b) d -> a1 = a2.
Proof.
  induction d as [| [a b'] d IH]; cbn; [contradiction |].
  intros Hnd H1 H2. inversion Hnd as [| ? ? Hnin Hnd']; subst.
  destruct H1 as [E1 | H1], H2 as [E2 | H2].
  - congruence.
  - injection E1 as <- <-. exfalso. apply Hnin. apply in_map_iff. exists (a2, b'). auto.
  - injection E2 as <- <-. exfalso. apply Hnin. apply in_map_iff. exists (a1, b'). auto.
  - apply IH; assumption.
Qed.

Lemma header_lookup_mapping_inj (h1 h2 : cell) (c : string) :
  header_lookup h1 get_column_mapping = Some c ->
  header_lookup h2 get_column_mapping = Some c -> h1 = h2.
Proof.
  intros H1 H2.
  destruct (header_lookup_In _ _ _ H1) as (s1 & -> & Hs1).
  destruct (header_lookup_In _ _ _ H2) as (s2 & -> & Hs2).
  f_equal. apply (In_snd_inj get_column_mapping s1 s2 c); [| assumption | assumption].
  apply nodupb_NoDup. vm_compute. reflexivity.
Qed.

Lemma column_agrees_all : forallb column_agrees get_column_mapping = true.
Proof. vm_compute. reflexivity. Qed.

Lemma resolve_columns_value (d : list (string * string)) (l : list (nat * cell)) (p : nat * string) :
  In p (resolve_columns d l) -> exists h, header_lookup h d = Some (snd p).
Proof.
  induction l as [| [i h] l IH]; cbn; [contradiction |].
  destruct (header_lookup h d) as [c |] eqn:Eh.
  - intros [E | Hin]; [subst p; exists h; exact Eh | apply IH, Hin].
  - apply IH.
Qed.

Lemma clean_value_other_type (v : cell) (ct : option string) :
  ct <> Some "boolean" -> ct <> Some "date" -> ct <> Some "numeric" ->
  clean_value v ct =
  if (match v with PyNone => true | _ => false end) || py_eq_str v "" then PyNone else v.
Proof.
  intros Hb Hd Hn. unfold clean_value.
  rewrite (opt_str_eqb_false _ _ Hb), (opt_str_eqb_false _ _ Hd), (opt_str_eqb_false _ _ Hn).
  destruct (_ || _); reflexivity.
Qed.

Lemma clean_value_bool_type (v : cell) :
  clean_value v (Some "boolean") =
  if py_eq_str v "Yes" then PyBool true
  else if py_eq_str v "No" then PyBool false
  else PyNone.
Proof.
  destruct v as [| s | | | | | | |]; try reflexivity.
  unfold clean_value. cbn.
  destruct (String.eqb_spec s "") as [-> | _]; reflexivity.
Qed.

Lemma clean_value_date_str (s : string) :
  s <> "" -> s <> "-" -> clean_value (PyStr s) (Some "date") = PyStr s.
Proof.
  intros Hs Hdash. unfold clean_value. simpl.
  apply String.eqb_neq in Hs, Hdash. rewrite Hs, Hdash. reflexivity.
Qed.

Ltac clean_case E :=
  unfold clean_value; cbn; rewrite ?E; cbn; rewrite ?E; cbn; reflexivity.

(* ================================================================ *)

(** The untyped columns: for a column type other than ["boolean"],
    ["date"] and ["numeric"] (no type at all among them), [clean_value]
    maps [None] and [""] to [None] and returns every other value as it
    is. *)
Theorem clean_value_untyped (v : cell) (ct : option string) :
  ct <> Some "boolean" -> ct <> Some "date" -> ct <> Some "numeric" ->
  clean_value v ct =
  if (match v with PyNone => true | _ => false end) || py_eq_str v "" then PyNone else v.
Proof.
  apply clean_value_other_type.
Qed.

Lemma clean_value_untyped_witness :
  clean_value (PyStr "Brussels") None = PyStr "Brussels" /\
  clean_value (PyStr "") (Some "text") = PyNone.
Proof.
  split.
  - rewrite (clean_value_untyped (PyStr "Brussels") None); [reflexivity | discriminate ..].
  - rewrite (clean_value_untyped (PyStr "") (Some "text")); [reflexivity | discriminate ..].
Defined.

(** Cleaning twice is cleaning once in every column but a boolean one;
    in a boolean column a cleaned value is [True], [False] or [None],
    none of which is the string ["Yes"] or ["No"], so cleaning it again
    always gives [None]. *)
Theorem clean_value_idempotent :
  (forall (v : cell) (ct : option string), ct <> Some "boolean" ->
     clean_value (clean_value v ct) ct = clean_value v ct) /\
  (forall v : cell, clean_value (clean_value v (Some "boolean")) (Some "boolean") = PyNone).
Proof.
  split.
  - intros v ct Hb.
    destruct (opt_str_eqb ct "date") eqn:Ed.
    + apply opt_str_eqb_true in Ed. subst ct.
      destruct v as [| s | b | z | f | dt | d | t | days secs us]; try reflexivity.
      * unfold clean_value. cbn.
        destruct (String.eqb_spec s "") as [-> | Hs]; [reflexivity |].
        destruct (String.eqb_spec s "-") as [-> | Hdash]; [reflexivity |]. cbn.
        apply String.eqb_neq in Hs, Hdash. rewrite Hs, Hdash. reflexivity.
      * destruct b; reflexivity.
      * destruct (Z.eqb z 0) eqn:Ez; clean_case Ez.
      * destruct f as [m e | neg |]; [| reflexivity | reflexivity].
        destruct (Z.eqb m 0) eqn:Em; clean_case Em.
      * destruct (strftime_ymd_not_dash dt) as [H1 H2].
        assert (E : clean_value (PyDateTime dt) (Some "date") = PyStr (strftime_ymd dt))
          by reflexivity.
        rewrite E. apply clean_value_date_str; apply String.eqb_neq; assumption.
      * destruct ((days =? 0) && (secs =? 0) && (us =? 0))%Z eqn:Et; clean_case Et.
    + destruct (opt_str_eqb ct "numeric") eqn:En.
      * apply opt_str_eqb_true in En. subst ct.
        destruct v as [| s | b | z | f | dt | d | t | days secs us]; try reflexivity.
        rewrite clean_value_numeric_str.
        destruct (py_float (remove_commas s)); reflexivity.
      * assert (Hd : ct <> Some "date")
          by (intro E; subst ct; discriminate Ed).
        assert (Hn : ct <> Some "numeric")
          by (intro E; subst ct; discriminate En).
        rewrite (clean_value_other_type v ct Hb Hd Hn).
        destruct (_ || _) eqn:E; rewrite (clean_value_other_type _ ct Hb Hd Hn);
          [reflexivity | rewrite E; reflexivity].
  - intro v. rewrite (clean_value_bool_type v).
    destruct (py_eq_str v "Yes"); [reflexivity |].
    destruct (py_eq_str v "No"); reflexivity.
Qed.

Lemma clean_value_idempotent_witness :
  clean_value (clean_value (PyStr "1,5") (Some "numeric")) (Some "numeric") =
  clean_value (PyStr "1,5") (Some "numeric") /\
  clean_value (clean_value (PyStr "Yes") (Some "boolean")) (Some "boolean") = PyNone.
Proof.
  destruct clean_value_idempotent as [H1 H2].
  split; [apply H1; discriminate | apply H2].
Defined.

Lemma opt_str_eqb_iff (o1 o2 : option string) (s1 s2 : string) :
  Bool.eqb (opt_str_eqb o1 s1) (opt_str_eqb o2 s2) = true -> (o1 = Some s1 <-> o2 = Some s2).
Proof.
  intro H. apply Bool.eqb_prop in H. rewrite <- !opt_str_eqb_true, H. reflexivity.
Qed.

Lemma mapping_entry_agrees (s c : string) :
  assoc_lookup s get_column_mapping = Some c -> column_agrees (s, c) = true.
Proof.
  intro H. destruct (header_lookup_In (PyStr s) get_column_mapping c H) as (s' & E & Hin).
  injection E as <-. pose proof column_agrees_all as Hall.
  rewrite forallb_forall in Hall. apply Hall, Hin.
Qed.

(** In a numeric column, [clean_value] returns [None], an [int], a
    [float] or a [bool], never a string, a date or another object. *)
Theorem clean_value_numeric_kind (v : cell) :
  match clean_value v (Some "numeric") with
  | PyNone | PyInt _ | PyFloat _ | PyBool _ => True
  | _ => False
  end.
Proof.
  destruct v as [| s | | | | | | |]; try exact I.
  rewrite clean_value_numeric_str. destruct (py_float (remove_commas s)); exact I.
Qed.

(** In a numeric column, a comma anywhere in a string is ignored: the
    string with the comma and the string without it clean to the same
    value. *)
Theorem clean_value_numeric_commas (s1 s2 : string) :
  clean_value (PyStr (s1 ++ String "," s2)) (Some "numeric") =
  clean_value (PyStr (s1 ++ s2)) (Some "numeric").
Proof. rewrite !clean_value_numeric_str, remove_commas_comma. reflexivity. Qed.

(** In a date column every truthy value other than a [datetime] and the
    string ["-"] is returned unchanged: numbers (such as an Excel serial
    date), [date], [time] and [timedelta] objects and strings are not
    converted. *)
Theorem clean_value_date_passthrough (v : cell) :
  truthy v = true -> py_eq_str v "-" = false -> (forall dt, v <> PyDateTime dt) ->
  clean_value v (Some "date") = v.
Proof.
  intros Ht Hd Hdt.
  destruct v as [| s | b | z | f | dt | d | t | days secs us]; cbn in Ht, Hd;
    try discriminate; try reflexivity.
  - apply negb_true_iff in Ht. unfold clean_value. cbn. rewrite Ht, Hd. reflexivity.
  - subst b. reflexivity.
  - apply negb_true_iff in Ht. unfold clean_value. cbn. rewrite Ht. reflexivity.
  - destruct f as [m e | neg |]; [| reflexivity | reflexivity].
    apply negb_true_iff in Ht. unfold clean_value. cbn. rewrite Ht. reflexivity.
  - exfalso. apply (Hdt dt). reflexivity.
  - apply negb_true_iff in Ht. unfold clean_value. cbn. rewrite Ht. reflexivity.
Qed.

Lemma clean_value_date_passthrough_witness :
  clean_value (PyInt 45000) (Some "date") = PyInt 45000.
Proof. apply clean_value_date_passthrough; [reflexivity | reflexivity | discriminate]. Defined.

(** Every destination column computed from a header row is a column
    that [create_table] declares for [fts_data], and none is the serial
    key [id]. *)
Theorem db_columns_declared (headers : list cell) :
  Forall (fun c => c <> "id" /\ exists ty, assoc_lookup c fts_data_columns = Some ty)
    (db_columns headers).
Proof.
  apply Forall_forall. intros c Hc. unfold db_columns in Hc.
  apply in_map_iff in Hc as [p [<- Hp]].
  destruct (resolve_columns_value _ _ _ Hp) as [h Hh].
  destruct (header_lookup_In _ _ _ Hh) as (s & -> & _).
  pose proof (mapping_entry_agrees s (snd p) Hh) as Ha.
  unfold column_agrees in Ha. apply andb_prop in Ha as [Ha Hsome].
  apply andb_prop in Ha as [_ Hid]. apply negb_true_iff, String.eqb_neq in Hid.
  split; [exact Hid |].
  destruct (assoc_lookup (snd p) fts_data_columns) as [ty |]; [exists ty; reflexivity | discriminate].
Qed.

(** The ColumnTypes entry of a mapped header agrees with the SQL type of
    its column in [fts_data]: the header is cleaned as a boolean exactly
    when the column is [BOOLEAN], as a date exactly when it is [DATE],
    and as a number exactly when it is [NUMERIC]. *)
Theorem column_types_match_schema (s c : string) :
  assoc_lookup s get_column_mapping = Some c ->
  (assoc_lookup s get_column_types = Some "boolean" <->
     assoc_lookup c fts_data_columns = Some "BOOLEAN") /\
  (assoc_lookup s get_column_types = Some "date" <->
     assoc_lookup c fts_data_columns = Some "DATE") /\
  (assoc_lookup s get_column_types = Some "numeric" <->
     assoc_lookup c fts_data_columns = Some "NUMERIC").
Proof.
  intro H. pose proof (mapping_entry_agrees s c H) as Ha.
  unfold column_agrees in Ha.
  apply andb_prop in Ha as [Ha _]. apply andb_prop in Ha as [Ha _].
  apply andb_prop in Ha as [Ha Hn]. apply andb_prop in Ha as [Hb Hd].
  split; [| split]; apply opt_str_eqb_iff; assumption.
Qed.

Lemma column_types_match_schema_witness :
  assoc_lookup "coordinator" fts_data_columns = Some "BOOLEAN" /\
  assoc_lookup "project_end_date" fts_data_columns = Some "DATE".
Proof.
  split.
  - apply (column_types_match_schema "Coordinator" "coordinator"); reflexivity.
  - apply (column_types_match_schema "Project end date" "project_end_date"); reflexivity.
Defined.

(** When no mapped header occurs twice in the header row, no destination
    column occurs twice in the column list of the [INSERT]. *)
Theorem db_columns_nodup (headers : list cell) :
  NoDup (filter is_mapped headers) -> NoDup (db_columns headers).
Proof.
  rewrite db_columns_images. unfold mapped_images.
  induction headers as [| h hs IH]; cbn; [constructor |].
  unfold is_mapped at 1. destruct (header_lookup h get_column_mapping) as [c |] eqn:Eh.
  - intro Hnd. apply NoDup_cons_iff in Hnd as [Hnin Hnd]. cbn.
    constructor; [| apply IH, Hnd].
    intro Hc. apply in_flat_map in Hc as [h' [Hh' Hc]].
    destruct (header_lookup h' get_column_mapping) as [c' |] eqn:Eh'; [| contradiction].
    destruct Hc as [E | []]. subst c'.
    rewrite <- (header_lookup_mapping_inj h h' c Eh Eh') in Hh'.
    apply Hnin, filter_In. split; [exact Hh' | unfold is_mapped; rewrite Eh; reflexivity].
  - exact IH.
Qed.

Lemma db_columns_nodup_witness :
  NoDup (db_columns [PyStr "Year"; PyNone; PyStr "Unknown"; PyNone; PyStr "City"]).
Proof.
  apply db_columns_nodup. vm_compute.
  repeat constructor; cbn; intuition discriminate.
Defined.

(** ** Number parsing with surrounding whitespace *)

Lemma list_ascii_of_string_append (a b : string) :
  list_ascii_of_string (a ++ b) = app (list_ascii_of_string a) (list_ascii_of_string b).
Proof. induction a as [| c a IH]; cbn; [reflexivity | rewrite IH; reflexivity]. Qed.

Lemma drop_spaces_spaces (sp l : list ascii) :
  forallb is_py_space sp = true -> drop_spaces (app sp l) = drop_spaces l.
Proof.
  induction sp as [| c sp IH]; cbn; intro H; [reflexivity |].
  apply andb_prop in H as [Hc Hsp]. rewrite Hc. apply IH, Hsp.
Qed.

Lemma drop_spaces_digit (c : ascii) (l : list ascii) :
  is_digit c = true -> drop_spaces (c :: l) = c :: l.
Proof. intro H. cbn. rewrite digit_not_space by exact H. reflexivity. Qed.

Lemma strip_padded (sp1 ds sp2 : list ascii) :
  forallb is_py_space sp1 = true -> forallb is_py_space sp2 = true ->
  ds <> [] -> Forall (fun c => is_digit c = true) ds ->
  strip (app sp1 (app ds sp2)) = ds.
Proof.
  intros H1 H2 Hne Hd. unfold strip. rewrite drop_spaces_spaces by exact H1.
  destruct ds as [| c l] eqn:Eds; [contradiction |].
  rewrite <- app_comm_cons, drop_spaces_digit by (inversion Hd; assumption).
  rewrite app_comm_cons, rev_app_distr, drop_spaces_spaces by (rewrite forallb_forall in *; intros x Hx; apply H2, in_rev, Hx).
  assert (Hr : Forall (fun c => is_digit c = true) (rev (c :: l))) by (apply Forall_rev; exact Hd).
  destruct (rev (c :: l)) as [| c' l'] eqn:Er.
  - apply (f_equal (@List.length ascii)) in Er. rewrite length_rev in Er. discriminate.
  - rewrite drop_spaces_digit by (inversion Hr; assumption).
    rewrite <- Er, rev_involutive. reflexivity.
Qed.

Lemma no_underscore_spaces_digits (l : list ascii) :
  Forall (fun c => is_py_space c = true \/ is_digit c = true) l ->
  existsb (fun c => Ascii.eqb c "_") l = false.
Proof.
  induction 1 as [| c l Hc _ IH]; cbn; [reflexivity |]. rewrite IH, orb_false_r.
  destruct (Ascii.eqb_spec c "_") as [-> | _]; [| reflexivity].
  destruct Hc as [Hc | Hc]; discriminate Hc.
Qed.

Lemma no_comma_spaces_digits (s : string) :
  Forall (fun c => is_py_space c = true \/ is_unicode_space_high c = true \/ is_digit c = true)
    (list_ascii_of_string s) ->
  remove_commas s = s.
Proof.
  induction s as [| c s IH]; cbn; intro H; [reflexivity |].
  inversion H as [| ? ? Hc Hs]; subst.
  destruct (Ascii.eqb_spec c ",") as [-> | _];
    [destruct Hc as [Hc | [Hc | Hc]]; discriminate Hc |].
  rewrite IH by exact Hs. reflexivity.
Qed.

Lemma high_space_ascii (c : ascii) :
  (nat_of_ascii c < 128)%nat -> is_unicode_space_high c = false.
Proof.
  unfold is_unicode_space_high. intro H.
  destruct (Nat.eqb_spec (nat_of_ascii c) 133), (Nat.eqb_spec (nat_of_ascii c) 160);
    [lia | lia | lia | reflexivity].
Qed.

Lemma py_space_small (c : ascii) : is_py_space c = true -> (nat_of_ascii c <= 32)%nat.
Proof.
  unfold is_py_space. intro H. apply orb_true_iff in H as [H | H].
  - apply Nat.eqb_eq in H. lia.
  - apply andb_prop in H as [_ H]. apply Nat.leb_le in H. lia.
Qed.

Lemma digit_small (c : ascii) : is_digit c = true -> (nat_of_ascii c <= 57)%nat.
Proof. unfold is_digit. intro H. apply andb_prop in H as [_ H]. apply Nat.leb_le, H. Qed.

(** On whitespace and digits, the transformation to ASCII keeps the
    ASCII characters and turns U+0085 and U+00A0 into spaces. *)
Lemma transform_spaces_digits (l : list ascii) :
  Forall (fun c => is_py_space c = true \/ is_unicode_space_high c = true \/ is_digit c = true) l ->
  transform_decimal_and_space_to_ascii l =
  map (fun c => if is_unicode_space_high c then " "%char else c) l.
Proof.
  intro H. unfold transform_decimal_and_space_to_ascii.
  destruct (forallb (fun c => Nat.ltb (nat_of_ascii c) 128) l) eqn:E.
  - clear H. induction l as [| c l IH]; [reflexivity |].
    cbn [forallb] in E. apply andb_prop in E as [Ec El]. cbn [map].
    rewrite high_space_ascii by (apply Nat.ltb_lt, Ec). rewrite <- (IH El). reflexivity.
  - clear E. induction H as [| c l Hc _ IH]; [reflexivity |]. cbn [transform_chars map].
    destruct (Nat.ltb_spec (nat_of_ascii c) 127) as [Hlt | Hge].
    + rewrite high_space_ascii by lia. rewrite IH. reflexivity.
    + destruct Hc as [Hc | [Hc | Hc]].
      * apply py_space_small in Hc. lia.
      * rewrite Hc, IH. reflexivity.
      * apply digit_small in Hc. lia.
Qed.

Lemma float_from_string_inner_digits (ds : list ascii) :
  ds <> [] -> Forall (fun c => is_digit c = true) ds ->
  parse_sign ds = (false, ds) /\
  lower_eq ds "inf" = false /\ lower_eq ds "infinity" = false /\ lower_eq ds "nan" = false /\
  parse_decimal false ds = Some (Finite (digits_value ds) 0).
Proof.
  intros Hne Hd. destruct ds as [| c l]; [contradiction |].
  inversion Hd as [| ? ? Hc Hl]; subst.
  split.
  - unfold parse_sign.
    destruct (Ascii.eqb_spec c "-") as [-> | Hm]; [discriminate Hc |].
    destruct (Ascii.eqb_spec c "+") as [-> | Hp]; [discriminate Hc |].
    destruct c as [[] [] [] [] [] [] [] []]; try reflexivity; exfalso; auto.
  - unfold lower_eq. rewrite !(digit_first_not_letter c l) by (exact Hc || reflexivity).
    split; [reflexivity | split; [reflexivity | split; [reflexivity |]]].
    unfold parse_decimal. rewrite (digits_take (c :: l) Hd). cbn.
    rewrite app_nil_r. reflexivity.
Qed.

(** In a numeric column, the decimal representation [str(n)] of a
    natural number [n] with whitespace around it cleans to the float
    [n]: [float()] strips the ASCII whitespace (space and the characters
    9 to 13) and the Unicode whitespace U+0085 and U+00A0, which it
    first turns into spaces. *)
Theorem clean_value_numeric_int_spaces (n : nat) (sp1 sp2 : string) :
  forallb (fun c => is_py_space c || is_unicode_space_high c) (list_ascii_of_string sp1) = true ->
  forallb (fun c => is_py_space c || is_unicode_space_high c) (list_ascii_of_string sp2) = true ->
  clean_value (PyStr (sp1 ++ dec_string n ++ sp2)) (Some "numeric") =
  PyFloat (Finite (Z.of_nat n) 0).
Proof.
  intros H1 H2. destruct (dec_string_digits n) as (ds & Hds & Hne & Hd & Hv).
  assert (Hl : list_ascii_of_string (sp1 ++ dec_string n ++ sp2) =
               app (list_ascii_of_string sp1) (app ds (list_ascii_of_string sp2)))
    by (rewrite !list_ascii_of_string_append, Hds; reflexivity).
  assert (Hsp : forall sp : list ascii,
            forallb (fun c => is_py_space c || is_unicode_space_high c) sp = true ->
            Forall (fun c => is_py_space c = true \/ is_unicode_space_high c = true \/
                             is_digit c = true) sp /\
            forallb is_py_space
              (map (fun c => if is_unicode_space_high c then " "%char else c) sp) = true).
  { intros sp Hs. rewrite forallb_forall in Hs. split.
    - apply Forall_forall. intros c Hc. specialize (Hs c Hc).
      apply orb_true_iff in Hs as [Hs | Hs]; auto.
    - apply forallb_forall. intros c' Hc'. apply in_map_iff in Hc' as [c [<- Hc]].
      specialize (Hs c Hc). destruct (is_unicode_space_high c) eqn:Eh; [reflexivity |].
      rewrite orb_false_r in Hs. exact Hs. }
  destruct (Hsp _ H1) as [T1 S1]. destruct (Hsp _ H2) as [T2 S2].
  assert (Td : Forall (fun c => is_py_space c = true \/ is_unicode_space_high c = true \/
                                is_digit c = true) ds)
    by (eapply Forall_impl; [| exact Hd]; intros c Hc; right; right; exact Hc).
  assert (Htri : Forall (fun c => is_py_space c = true \/ is_unicode_space_high c = true \/
                                  is_digit c = true)
                   (list_ascii_of_string (sp1 ++ dec_string n ++ sp2)))
    by (rewrite Hl; apply Forall_app; split; [| apply Forall_app; split]; assumption).
  assert (Hdf : map (fun c => if is_unicode_space_high c then " "%char else c) ds = ds).
  { clear -Hd. induction Hd as [| c l Hc _ IH]; [reflexivity |]. cbn [map]. rewrite IH.
    rewrite high_space_ascii; [reflexivity |]. apply digit_small in Hc. lia. }
  rewrite clean_value_numeric_str, no_comma_spaces_digits by exact Htri.
  unfold py_float. rewrite (transform_spaces_digits _ Htri), Hl, !map_app, Hdf.
  assert (Hsd : Forall (fun c => is_py_space c = true \/ is_digit c = true)
    (app (map (fun c => if is_unicode_space_high c then " "%char else c)
              (list_ascii_of_string sp1))
         (app ds (map (fun c => if is_unicode_space_high c then " "%char else c)
                      (list_ascii_of_string sp2))))).
  { rewrite forallb_forall in S1, S2. rewrite Forall_forall in Hd.
    apply Forall_app. split; [| apply Forall_app; split]; apply Forall_forall; intros c Hc.
    - left. apply S1, Hc.
    - right. apply Hd, Hc.
    - left. apply S2, Hc. }
  rewrite no_underscore_spaces_digits by exact Hsd.
  unfold float_from_string_inner. rewrite strip_padded by assumption.
  destruct (float_from_string_inner_digits ds Hne Hd) as (Hs & Hi & Hinf & Hnan & Hdec).
  rewrite Hs, Hi, Hinf, Hnan. cbn [orb]. rewrite Hdec, Hv. reflexivity.
Qed.

Lemma clean_value_numeric_int_spaces_witness :
  clean_value (PyStr (String (ascii_of_nat 160) " " ++ dec_string 42 ++
                      String (ascii_of_nat 10) (String (ascii_of_nat 133) "")))
    (Some "numeric") = PyFloat (Finite 42 0).
Proof.
  apply (clean_value_numeric_int_spaces 42 (String (ascii_of_nat 160) " ")
           (String (ascii_of_nat 10) (String (ascii_of_nat 133) ""))); reflexivity.
Defined.

(** ** The generator, the insert loop and the orchestration *)

(** [float("\x1c1")] raises [ValueError]: U+001C is Unicode whitespace
    but not ASCII whitespace, and [float()] strips only the latter once
    the string is ASCII.  [float("\xa01")] is [1.0]: U+00A0 is turned
    into a space first. *)
Lemma py_float_file_separator : py_float (String (ascii_of_nat 28) "1") = None.
Proof. vm_compute. reflexivity. Qed.

Lemma py_float_no_break_space :
  py_float (String (ascii_of_nat 160) "1") = Some (Finite 1 0).
Proof. vm_compute. reflexivity. Qed.

Lemma row_values_short (xty cols : list (nat * string)) (row : list cell) :
  Exists (fun p => (List.length row <= fst p)%nat) cols ->
  row_values xty cols row = Raise IndexError.
Proof.
  induction 1 as [[idx c] cols Hp | [idx c] cols _ IH]; cbn.
  - cbn in Hp. apply nth_error_None in Hp. rewrite Hp. reflexivity.
  - rewrite IH. destruct (nth_error row idx); reflexivity.
Qed.

Lemma batch_loop_bad (cols : list string) (xdb xty : list (nat * string))
  (g : list cell -> list cell) (data1 : list (list cell)) (bad : list cell)
  (data2 rows : list (list cell)) (stop : option exn) :
  (List.length rows < batch_size)%nat ->
  (forall row, In row data1 -> row_values xty xdb row = Ok (g row)) ->
  row_values xty xdb bad = Raise IndexError ->
  snd (batch_loop cols xdb xty stop (app data1 (bad :: data2)) rows) = Some IndexError /\
  Forall (fun b => List.length (snd b) = batch_size)
    (fst (batch_loop cols xdb xty stop (app data1 (bad :: data2)) rows)) /\
  exists pending,
    app (List.concat (map snd (fst (batch_loop cols xdb xty stop (app data1 (bad :: data2)) rows))))
      pending = app rows (map g data1) /\
    (List.length pending < batch_size)%nat.
Proof.
  intros Hlen Hrows Hbad. revert rows Hlen.
  induction data1 as [| row data1 IH]; intros rows Hlen; cbn.
  - rewrite Hbad. cbn. split; [reflexivity |]. split; [constructor |].
    exists rows. split; [rewrite app_nil_r; reflexivity | exact Hlen].
  - rewrite (Hrows row (or_introl eq_refl)).
    assert (Hd : forall r, In r data1 -> row_values xty xdb r = Ok (g r))
      by (intros r Hr; apply Hrows; right; exact Hr).
    specialize (IH Hd).
    rewrite length_app. cbn.
    destruct (Nat.leb_spec batch_size (List.length rows + 1)) as [Hfull | Hnot].
    + destruct (IH [] batch_size_pos) as (Herr & Hall & pending & Hcat & Hp).
      destruct (batch_loop cols xdb xty stop (app data1 (bad :: data2)) []) as [bs err].
      cbn in *. split; [exact Herr |]. split.
      * constructor; [cbn; rewrite length_app; cbn; lia | exact Hall].
      * exists pending. split; [| exact Hp].
        rewrite <- app_assoc, Hcat. rewrite <- app_assoc. reflexivity.
    + destruct (IH (app rows [g row]) ltac:(rewrite length_app; cbn; lia))
        as (Herr & Hall & pending & Hcat & Hp).
      split; [exact Herr |]. split; [exact Hall |].
      exists pending. split; [| exact Hp]. rewrite Hcat, <- app_assoc. reflexivity.
Qed.

Lemma forallb_false_exists {A : Type} (f : A -> bool) (l : list A) :
  forallb f l = false -> exists x, In x l /\ f x = false.
Proof.
  induction l as [| x l IH]; cbn; [discriminate |].
  destruct (f x) eqn:Ex; cbn.
  - intro H. destruct (IH H) as [y [Hy Hf]]. exists y. split; [right; exact Hy | exact Hf].
  - intros _. exists x. split; [left; reflexivity | exact Ex].
Qed.

Lemma row_not_processable_short (headers row : list cell) :
  row_processable headers row = false ->
  row_values (excel_column_types headers) (excel_to_db_columns headers) row = Raise IndexError.
Proof.
  intro H. apply row_values_short. unfold row_processable in H.
  apply forallb_false_exists in H as [p [Hp Hlt]].
  apply Exists_exists. exists p. split; [exact Hp |].
  apply Nat.ltb_ge, Hlt.
Qed.

Lemma batch_loop_raise_row (headers : list cell) (stop : option exn)
  (data rows : list (list cell)) (e : exn) :
  snd (batch_loop (db_columns headers) (excel_to_db_columns headers)
         (excel_column_types headers) stop data rows) = Some e ->
  stop = Some e \/
  (e = IndexError /\ exists row, In row data /\ row_processable headers row = false).
Proof.
  revert rows. induction data as [| row data IH]; intro rows; cbn.
  - destruct stop as [e' |]; [intro H; left; exact H |]. destruct rows; discriminate.
  - destruct (row_values (excel_column_types headers) (excel_to_db_columns headers) row)
      as [vals | e'] eqn:Er.
    + intro H.
      assert (Hrec : stop = Some e \/
                     (e = IndexError /\ exists row, In row data /\
                                       row_processable headers row = false)).
      { destruct (Nat.leb batch_size (List.length (app rows [vals]))).
        - specialize (IH []).
          destruct (batch_loop (db_columns headers) (excel_to_db_columns headers)
                      (excel_column_types headers) stop data []) as [bs err].
          exact (IH H).
        - exact (IH _ H). }
      destruct Hrec as [Hs | [He [r [Hr Hp]]]]; [left; exact Hs |].
      right. split; [exact He |]. exists r. split; [right; exact Hr | exact Hp].
    + intro H. injection H as <-. right. split; [exact (row_values_raise _ _ _ _ Er) |].
      exists row. split; [left; reflexivity |].
      destruct (row_processable headers row) eqn:Ep; [| reflexivity].
      rewrite row_values_project in Er by exact Ep. discriminate.
Qed.

Lemma full_batches_length (bs : list batch) :
  Forall (fun b => List.length (snd b) = batch_size) bs ->
  List.length (List.concat (map snd bs)) = (List.length bs * batch_size)%nat.
Proof.
  induction 1 as [| b bs Hb _ IH]; cbn; [reflexivity |].
  rewrite length_app, Hb, IH. reflexivity.
Qed.

Lemma batches_count (bs : list batch) :
  Forall (fun b => List.length (snd b) = batch_size) (removelast bs) ->
  last_batch_ok bs ->
  List.length bs =
  ((List.length (List.concat (map snd bs)) + batch_size - 1) / batch_size)%nat.
Proof.
  intros Hrl Hl. pose proof batch_size_pos as Hpos.
  destruct bs as [| b0 bs0] eqn:Ebs.
  - cbn. symmetry. apply Nat.div_small. lia.
  - rewrite <- Ebs in *. assert (Hne : bs <> []) by (rewrite Ebs; discriminate).
    destruct (exists_last Hne) as [l [x Ex]]. rewrite Ex in Hrl, Hl |- *.
    rewrite removelast_last in Hrl. unfold last_batch_ok in Hl.
    rewrite rev_app_distr in Hl. cbn in Hl.
    rewrite map_app, concat_app, !length_app. unfold batch in *. rewrite (full_batches_length l Hrl).
    cbn [map List.concat]. rewrite app_nil_r. change (Datatypes.length [x]) with 1%nat.
    apply (Nat.div_unique _ _ _ (List.length (snd x) - 1)); [lia |].
    unfold batch in *. clear -Hl. revert Hl. generalize (List.length (snd x)) (List.length l) batch_size.
    intros a n B Hl. rewrite Nat.mul_add_distr_l, Nat.mul_1_r, (Nat.mul_comm B). lia.
Qed.

Lemma insert_batches_ok (pg_insert : list string -> list (list cell) -> res unit)
  (year : Z) (bs : list batch) :
  (forall cols rows, pg_insert cols rows = Ok tt) ->
  insert_batches pg_insert year bs = (Ok tt, map (fun b => EvInsert year (fst b) (snd b)) bs).
Proof.
  intro Hins. induction bs as [| [cols rows] bs IH]; [reflexivity |].
  cbn [insert_batches]. unfold insert_data_batch. rewrite Hins. cbn.
  rewrite IH. reflexivity.
Qed.

Lemma load_dotenv_lookup (environ dotenv : env) (k : string) :
  os_getenv (load_dotenv environ dotenv) k =
  match os_getenv environ k with Some v => Some v | None => assoc_lookup k (rev dotenv) end.
Proof.
  unfold os_getenv, load_dotenv. rewrite assoc_lookup_app.
  destruct (assoc_lookup k environ) eqn:E; [reflexivity |].
  apply assoc_lookup_filter_absent, E.
Qed.

Lemma Forall_bind {A B : Type} (P : event -> Prop) (m : M A) (f : A -> M B) :
  Forall P (snd m) -> (forall a, Forall P (snd (f a))) -> Forall P (snd (bind m f)).
Proof.
  unfold bind. destruct m as [[a | e] t]; cbn; intros Hm Hf; [| exact Hm].
  specialize (Hf a). destruct (f a) as [r t']. cbn in *. apply Forall_app. split; assumption.
Qed.

Lemma Forall_try_except {A : Type} (P : event -> Prop) (m : M A) (h : exn -> M A) :
  Forall P (snd m) -> (forall e, Forall P (snd (h e))) -> Forall P (snd (try_except m h)).
Proof.
  unfold try_except. destruct m as [[a | e] t]; cbn; intros Hm Hh; [exact Hm |].
  destruct (exn_is_Exception e); [| exact Hm].
  specialize (Hh e). destruct (h e) as [r t']. cbn in *. apply Forall_app. split; assumption.
Qed.

Lemma Forall_emit (P : event -> Prop) (ev : event) : P ev -> Forall P (snd (emit ev)).
Proof. intro H. repeat constructor. exact H. Qed.

Lemma Forall_lift {A : Type} (P : event -> Prop) (r : res A) : Forall P (snd (lift r)).
Proof. constructor. Qed.

Lemma Forall_ret {A : Type} (P : event -> Prop) (a : A) : Forall P (snd (ret a)).
Proof. constructor. Qed.

Lemma Forall_raise {A : Type} (P : event -> Prop) (e : exn) : Forall P (snd (@raise A e)).
Proof. constructor. Qed.

Ltac trace_forall :=
  repeat first
    [ apply Forall_bind; [| intro]
    | apply Forall_try_except; [| intro]
    | apply Forall_emit; discriminate
    | apply Forall_lift
    | apply Forall_ret
    | apply Forall_raise ].

Section Orchestration_extra.

Variable pg_connect : string -> string -> string -> string -> string -> res unit.
Variable pg_create_table : res unit.
Variable make_temp_dir : res unit.
Variable http_get : Z -> res response.
Variable save_file : Z -> string -> res unit.
Variable load_workbook : string -> res sheet_rows.
Variable pg_insert : list string -> list (list cell) -> res unit.

Lemma connect_no_close (environ dotenv : env) :
  Forall (fun ev => ev <> EvClose) (snd (connect_to_database pg_connect environ dotenv)).
Proof.
  unfold connect_to_database. cbv zeta.
  destruct (negb _); trace_forall.
Qed.

Lemma insert_batches_no_close (year : Z) (bs : list batch) :
  Forall (fun ev => ev <> EvClose) (snd (insert_batches pg_insert year bs)).
Proof.
  induction bs as [| [cols rows] bs IH]; cbn [insert_batches]; [constructor |].
  apply Forall_bind; [| intro; exact IH]. unfold insert_data_batch. trace_forall.
Qed.

Lemma year_step_no_close (year : Z) :
  Forall (fun ev => ev <> EvClose)
    (snd (year_step http_get save_file load_workbook pg_insert year)).
Proof.
  unfold year_step, year_body. trace_forall.
  destruct (status_code _ =? 200)%Z; trace_forall.
  unfold insert_data.
  destruct (process_excel_data load_workbook _) as [bs err].
  apply Forall_bind; [apply insert_batches_no_close | intro].
  destruct err; trace_forall.
Qed.

Lemma years_loop_no_close (ys : list Z) :
  Forall (fun ev => ev <> EvClose)
    (snd (years_loop http_get save_file load_workbook pg_insert ys)).
Proof.
  induction ys as [| y ys IH]; cbn [years_loop]; [constructor |].
  apply Forall_bind; [apply year_step_no_close | intro; exact IH].
Qed.

End Orchestration_extra.

(** A data row that has no cell at the position of some mapped header
    stops the generator with [IndexError], whatever follows it in the
    file.  The batches yielded before it are all full and hold, in file
    order, the cleaned rows before the short row except the last fewer
    than [batch_size] ones, which were still pending and are never
    yielded. *)
Theorem process_excel_data_short_row (load_workbook : string -> res sheet_rows)
  (file_path : string) (headers : list cell) (data1 : list (list cell)) (bad : list cell)
  (data2 : list (list cell)) (stop : option exn) :
  load_workbook file_path = Ok (headers :: app data1 (bad :: data2), stop) ->
  processable headers data1 = true ->
  row_processable headers bad = false ->
  snd (process_excel_data load_workbook file_path) = Some IndexError /\
  Forall (fun b => List.length (snd b) = batch_size)
    (fst (process_excel_data load_workbook file_path)) /\
  exists pending,
    app (List.concat (map snd (fst (process_excel_data load_workbook file_path))))
      pending = map (project_row headers) data1 /\
    (List.length pending < batch_size)%nat.
Proof.
  intros Hload Hp Hbad. unfold process_excel_data. rewrite Hload.
  apply (batch_loop_bad _ _ _ (project_row headers) data1 bad data2 [] stop batch_size_pos).
  - exact (processable_rows headers data1 Hp).
  - exact (row_not_processable_short headers bad Hbad).
Qed.

Lemma process_excel_data_short_row_witness :
  Forall (fun b => List.length (snd b) = batch_size)
    (fst (process_excel_data
      (fun _ => Ok ([PyStr "Year"] :: app (repeat [PyInt 2020] 5001) ([] :: []), None))
      "2020_FTS_dataset_en.xlsx")) /\
  List.length (fst (process_excel_data
      (fun _ => Ok ([PyStr "Year"] :: app (repeat [PyInt 2020] 5001) ([] :: []), None))
      "2020_FTS_dataset_en.xlsx")) = 1%nat.
Proof.
  split; [| vm_compute; reflexivity].
  destruct (process_excel_data_short_row
    (fun _ => Ok ([PyStr "Year"] :: app (repeat [PyInt 2020] 5001) ([] :: []), None))
    "2020_FTS_dataset_en.xlsx" [PyStr "Year"] (repeat [PyInt 2020] 5001) [] [] None)
    as (_ & H & _);
    [reflexivity | vm_compute; reflexivity | reflexivity | exact H].
Defined.

(** For a file that openpyxl reads to its end and whose data rows have a
    cell under every mapped header, the generator yields
    [ceil(n / batch_size)] batches for [n] data rows, so none at all for
    a sheet with a header row only. *)
Theorem process_excel_data_batch_count (load_workbook : string -> res sheet_rows)
  (file_path : string) (headers : list cell) (data : list (list cell)) :
  load_workbook file_path = Ok (headers :: data, None) ->
  processable headers data = true ->
  List.length (fst (process_excel_data load_workbook file_path)) =
  ((List.length data + batch_size - 1) / batch_size)%nat.
Proof.
  intros Hload Hp.
  destruct (process_excel_data_spec load_workbook file_path headers data Hload Hp)
    as (_ & _ & Hcat & Hrl & Hl).
  rewrite (batches_count _ Hrl Hl). cbn zeta in Hcat. rewrite Hcat, length_map. reflexivity.
Qed.

Lemma process_excel_data_batch_count_witness :
  List.length (fst (process_excel_data
    (fun _ => Ok ([PyStr "Year"] :: repeat [PyInt 2020] 10001, None))
    "2020_FTS_dataset_en.xlsx")) = 3%nat.
Proof.
  rewrite (process_excel_data_batch_count
    (fun _ => Ok ([PyStr "Year"] :: repeat [PyInt 2020] 10001, None))
    "2020_FTS_dataset_en.xlsx" [PyStr "Year"] (repeat [PyInt 2020] 10001));
    [vm_compute; reflexivity | reflexivity | vm_compute; reflexivity].
Defined.

(** The generator raises no exception of its own except [RuntimeError],
    for a sheet without any row ([next()] on the exhausted row iterator
    inside a generator), and [IndexError], for a data row missing a cell
    under a mapped header; any other exception it stops with is the one
    openpyxl raised opening the workbook or reading its rows. *)
Theorem process_excel_data_errors (load_workbook : string -> res sheet_rows)
  (file_path : string) (e : exn) :
  snd (process_excel_data load_workbook file_path) = Some e ->
  load_workbook file_path = Raise e \/
  (exists sheet, load_workbook file_path = Ok (sheet, Some e)) \/
  (load_workbook file_path = Ok ([], None) /\ e = RuntimeError) \/
  (e = IndexError /\
   exists headers data stop row,
     load_workbook file_path = Ok (headers :: data, stop) /\ In row data /\
     row_processable headers row = false).
Proof.
  unfold process_excel_data.
  destruct (load_workbook file_path) as [[sheet stop] | e'] eqn:Hload; cbn.
  - destruct sheet as [| headers data].
    + intro H. injection H as <-. destruct stop as [e' |].
      * right. left. exists []. reflexivity.
      * right. right. left. split; reflexivity.
    + intro H. destruct (batch_loop_raise_row headers stop data [] e H)
        as [-> | [He [row [Hr Hp]]]].
      * right. left. exists (headers :: data). reflexivity.
      * right. right. right. split; [exact He |].
        exists headers, data, stop, row. split; [reflexivity | split; assumption].
  - intro H. injection H as <-. left. reflexivity.
Qed.

Lemma process_excel_data_errors_witness :
  exists headers data (stop : option exn) row,
    (Ok ([[PyStr "Year"]; []], None) : res sheet_rows) = Ok (headers :: data, stop) /\
    In row data /\ row_processable headers row = false.
Proof.
  destruct (process_excel_data_errors (fun _ => Ok ([[PyStr "Year"]; []], None))
    "2020_FTS_dataset_en.xlsx" IndexError)
    as [H | [[sh H] | [[H _] | [_ H]]]];
    [vm_compute; reflexivity | discriminate H | discriminate H | discriminate H | exact H].
Defined.

Section Orchestration_extra_theorems.

Variable pg_connect : string -> string -> string -> string -> string -> res unit.
Variable pg_create_table : res unit.
Variable make_temp_dir : res unit.
Variable http_get : Z -> res response.
Variable save_file : Z -> string -> res unit.
Variable load_workbook : string -> res sheet_rows.
Variable pg_insert : list string -> list (list cell) -> res unit.

(** A year whose file downloads (status 200) and saves, with every
    insert succeeding, inserts each batch the generator yields, in order,
    each under that year.  If the generator then stops on an exception
    (from openpyxl or its own), that exception propagates after the
    inserted batches, which stay committed: one deriving from
    [Exception] is logged and the year ends normally, any other one
    leaves the year. *)
Theorem year_step_loaded (year : Z) (resp : response) :
  http_get year = Ok resp -> status_code resp = 200%Z ->
  save_file year (content resp) = Ok tt ->
  (forall cols rows, pg_insert cols rows = Ok tt) ->
  year_step http_get save_file load_workbook pg_insert year =
  (match snd (process_excel_data load_workbook (content resp)) with
   | Some e => if exn_is_Exception e then Ok tt else Raise e
   | None => Ok tt
   end,
   EvGet year :: EvSaved year ::
   app (map (fun b => EvInsert year (fst b) (snd b))
            (fst (process_excel_data load_workbook (content resp))))
       (match snd (process_excel_data load_workbook (content resp)) with
        | Some e => if exn_is_Exception e then [EvYearError year e] else []
        | None => []
        end)).
Proof.
  intros Hget Hst Hsave Hins.
  unfold year_step, year_body. cbn [bind emit lift]. rewrite Hget. cbn [bind lift].
  rewrite Hst. cbn [Z.eqb Pos.eqb]. rewrite Hsave. cbn [bind lift emit].
  unfold insert_data.
  destruct (process_excel_data load_workbook (content resp)) as [bs err]. cbn [fst snd].
  rewrite insert_batches_ok by exact Hins. cbn [bind].
  destruct err as [e |].
  - cbn. destruct (exn_is_Exception e); cbn; rewrite <- ?app_assoc, ?app_nil_r; reflexivity.
  - cbn. rewrite !app_nil_r. reflexivity.
Qed.

(** The insert loop of [insert_data] stops at the first batch whose
    insert fails: the batches before it are inserted, that batch and
    the following ones are not, and the failure propagates. *)
Theorem insert_batches_first_failure (year : Z) (bs1 : list batch) (b : batch)
  (bs2 : list batch) (e : exn) :
  Forall (fun b => pg_insert (fst b) (snd b) = Ok tt) bs1 ->
  pg_insert (fst b) (snd b) = Raise e ->
  insert_batches pg_insert year (app bs1 (b :: bs2)) =
  (Raise e, map (fun b => EvInsert year (fst b) (snd b)) bs1).
Proof.
  intros Hok Hfail. induction Hok as [| [cols rows] bs1 Hb _ IH]; cbn [app insert_batches].
  - destruct b as [cols rows]. unfold insert_data_batch. cbn in Hfail. rewrite Hfail.
    reflexivity.
  - unfold insert_data_batch. cbn in Hb. rewrite Hb. cbn. rewrite IH. reflexivity.
Qed.

(** A credential ([DB_NAME], [DB_USER] or [DB_PASSWORD]) set to the
    empty string in the process environment counts as missing, whatever
    the [.env] file defines for it: [connect_to_database] raises
    [ValueError] before any connection attempt and [main] only logs the
    error. *)
Theorem connect_to_database_empty_credential (environ dotenv : env) (current_year : Z)
  (k : string) :
  In k ["DB_NAME"; "DB_USER"; "DB_PASSWORD"] -> os_getenv environ k = Some "" ->
  connect_to_database pg_connect environ dotenv = (Raise ValueError, []) /\
  main pg_connect pg_create_table make_temp_dir http_get save_file load_workbook pg_insert
    environ dotenv current_year = (Ok tt, [EvDbError ValueError]).
Proof.
  intros Hin Hk.
  assert (Hk' : os_getenv (load_dotenv environ dotenv) k = Some "")
    by (rewrite load_dotenv_lookup, Hk; reflexivity).
  set (E := load_dotenv environ dotenv) in *.
  assert (Hf : forallb opt_truthy [os_getenv E "DB_NAME"; os_getenv E "DB_USER";
                                   os_getenv E "DB_PASSWORD"] = false).
  { apply not_true_iff_false. intro Ht. rewrite forallb_forall in Ht.
    assert (Hn : In (Some "") [os_getenv E "DB_NAME"; os_getenv E "DB_USER";
                              os_getenv E "DB_PASSWORD"]).
    { rewrite <- Hk'. change [os_getenv E "DB_NAME"; os_getenv E "DB_USER";
                             os_getenv E "DB_PASSWORD"]
                        with (map (os_getenv E) ["DB_NAME"; "DB_USER"; "DB_PASSWORD"]).
      apply in_map. exact Hin. }
    specialize (Ht _ Hn). discriminate. }
  assert (Hc : connect_to_database pg_connect environ dotenv = (Raise ValueError, [])).
  { unfold connect_to_database. fold E. cbv zeta. rewrite Hf. reflexivity. }
  split; [exact Hc |]. unfold main. rewrite Hc. reflexivity.
Qed.

(** The [finally] clause of [main] closes the connection exactly when it
    was opened: after a successful connection the run ends with the
    one and only close, whatever happens later (a [KeyboardInterrupt]
    included); after a failed one nothing is closed, and the trace is
    the connection attempt followed by the logged error, if the error
    derives from [Exception]. *)
Theorem main_closes_connection (environ dotenv : env) (current_year : Z) :
  (fst (connect_to_database pg_connect environ dotenv) = Ok tt ->
   exists t,
     snd (main pg_connect pg_create_table make_temp_dir http_get save_file load_workbook
            pg_insert environ dotenv current_year) = app t [EvClose] /\ ~ In EvClose t) /\
  (forall e, fst (connect_to_database pg_connect environ dotenv) = Raise e ->
   main pg_connect pg_create_table make_temp_dir http_get save_file load_workbook
     pg_insert environ dotenv current_year =
   (if exn_is_Exception e then Ok tt else Raise e,
    app (snd (connect_to_database pg_connect environ dotenv))
        (if exn_is_Exception e then [EvDbError e] else [])) /\
   ~ In EvClose (snd (main pg_connect pg_create_table make_temp_dir http_get save_file
                        load_workbook pg_insert environ dotenv current_year))).
Proof.
  pose proof (connect_no_close pg_connect environ dotenv) as Hc.
  unfold main. destruct (connect_to_database pg_connect environ dotenv) as [r t]. cbn in Hc.
  split.
  - intro Hr. cbn in Hr. subst r.
    match goal with
    | |- context [try_except ?m ?h] =>
        assert (Ht : Forall (fun ev => ev <> EvClose) (snd (try_except m h)))
    end.
    { apply Forall_try_except; [| intro; apply Forall_emit; discriminate].
      unfold create_table. apply Forall_bind; [trace_forall | intro].
      apply Forall_bind; [apply Forall_lift | intro]. apply years_loop_no_close. }
    destruct (try_except _ _) as [r' t']. cbn in Ht |- *.
    exists (app t t'). split; [rewrite app_assoc; reflexivity |].
    intro Hin. apply in_app_or in Hin as [Hin | Hin].
    + rewrite Forall_forall in Hc. exact (Hc _ Hin eq_refl).
    + rewrite Forall_forall in Ht. exact (Ht _ Hin eq_refl).
  - intros e Hr. cbn in Hr. subst r.
    destruct (exn_is_Exception e); cbn.
    + split; [reflexivity |].
      intro Hin. apply in_app_or in Hin as [Hin | [Hin | []]]; [| discriminate].
      rewrite Forall_forall in Hc. exact (Hc _ Hin eq_refl).
    + split; [rewrite app_nil_r; reflexivity |].
      intro Hin. rewrite Forall_forall in Hc. exact (Hc _ Hin eq_refl).
Qed.

(** When the connection is open but the table creation, or the creation
    of the temporary directory, fails with an exception deriving from
    [Exception], no year is requested: [main] logs the error and closes
    the connection. *)
Theorem main_setup_failure (environ dotenv : env) (current_year : Z) (e : exn) :
  fst (connect_to_database pg_connect environ dotenv) = Ok tt ->
  exn_is_Exception e = true ->
  (pg_create_table = Raise e ->
   main pg_connect pg_create_table make_temp_dir http_get save_file load_workbook pg_insert
     environ dotenv current_year =
   (Ok tt, app (snd (connect_to_database pg_connect environ dotenv)) [EvDbError e; EvClose])) /\
  (pg_create_table = Ok tt -> make_temp_dir = Raise e ->
   main pg_connect pg_create_table make_temp_dir http_get save_file load_workbook pg_insert
     environ dotenv current_year =
   (Ok tt, app (snd (connect_to_database pg_connect environ dotenv))
             [EvCreateTable; EvDbError e; EvClose])).
Proof.
  intros Hconn He. unfold main.
  destruct (connect_to_database pg_connect environ dotenv) as [r t]. cbn in Hconn |- *.
  subst r. split.
  - intro Hct. unfold create_table. rewrite Hct. cbn. rewrite He. reflexivity.
  - intros Hct Htmp. unfold create_table. rewrite Hct, Htmp. cbn. rewrite He. reflexivity.
Qed.

End Orchestration_extra_theorems.

Lemma year_step_loaded_witness :
  year_step (fun _ => Ok (mk_response 200 "xlsx")) (fun _ _ => Ok tt)
    (fun _ => Ok ([PyStr "Year"] :: repeat [PyInt 2020] 5001, Some (mk_exn "ValueError" true)))
    (fun _ _ => Ok tt) 2020 =
  (Ok tt, [EvGet 2020; EvSaved 2020; EvInsert 2020 ["year"] (repeat [PyInt 2020] 5000);
           EvYearError 2020 (mk_exn "ValueError" true)]).
Proof.
  rewrite (year_step_loaded (fun _ => Ok (mk_response 200 "xlsx")) (fun _ _ => Ok tt)
    (fun _ => Ok ([PyStr "Year"] :: repeat [PyInt 2020] 5001, Some (mk_exn "ValueError" true)))
    (fun _ _ => Ok tt) 2020 (mk_response 200 "xlsx")).
  - vm_compute. reflexivity.
  - reflexivity.
  - reflexivity.
  - reflexivity.
  - intros; reflexivity.
Defined.

Lemma insert_batches_first_failure_witness :
  insert_batches (fun cols _ => match cols with [] => Raise (mk_exn "OperationalError" true)
                                             | _ => Ok tt end)
    2020 [(["year"], [[PyInt 2020]]); ([], []); (["year"], [[PyInt 2021]])] =
  (Raise (mk_exn "OperationalError" true), [EvInsert 2020 ["year"] [[PyInt 2020]]]).
Proof.
  apply (insert_batches_first_failure
    (fun cols _ => match cols with [] => Raise (mk_exn "OperationalError" true) | _ => Ok tt end)
    2020 [(["year"], [[PyInt 2020]])] ([], []) [(["year"], [[PyInt 2021]])]).
  - repeat constructor.
  - reflexivity.
Defined.

Lemma connect_to_database_empty_credential_witness :
  connect_to_database (fun _ _ _ _ _ => Ok tt)
    [("DB_NAME", "fts"); ("DB_USER", "scraper"); ("DB_PASSWORD", "")]
    [("DB_PASSWORD", "secret")] = (Raise ValueError, []).
Proof.
  destruct (connect_to_database_empty_credential (fun _ _ _ _ _ => Ok tt) (Ok tt) (Ok tt)
    (fun _ => Ok (mk_response 200 "")) (fun _ _ => Ok tt) (fun _ => Ok ([], None)) (fun _ _ => Ok tt)
    [("DB_NAME", "fts"); ("DB_USER", "scraper"); ("DB_PASSWORD", "")]
    [("DB_PASSWORD", "secret")] 2024%Z "DB_PASSWORD") as [H _];
    [cbn; auto | reflexivity | exact H].
Defined.

Lemma main_closes_connection_witness :
  exists t,
    snd (main (fun _ _ _ _ _ => Ok tt) (Raise KeyboardInterrupt) (Ok tt)
           (fun _ => Ok (mk_response 404 "")) (fun _ _ => Ok tt) (fun _ => Ok ([], None))
           (fun _ _ => Ok tt)
           [("DB_NAME", "fts"); ("DB_USER", "scraper"); ("DB_PASSWORD", "secret")] [] 2024) =
    app t [EvClose] /\ ~ In EvClose t.
Proof.
  destruct (main_closes_connection (fun _ _ _ _ _ => Ok tt) (Raise KeyboardInterrupt) (Ok tt)
    (fun _ => Ok (mk_response 404 "")) (fun _ _ => Ok tt) (fun _ => Ok ([], None))
    (fun _ _ => Ok tt)
    [("DB_NAME", "fts"); ("DB_USER", "scraper"); ("DB_PASSWORD", "secret")] [] 2024%Z)
    as [H _].
  apply H. reflexivity.
Defined.

Lemma main_setup_failure_witness :
  main (fun _ _ _ _ _ => Ok tt) (Raise (mk_exn "ProgrammingError" true)) (Ok tt)
    (fun _ => Ok (mk_response 200 "")) (fun _ _ => Ok tt) (fun _ => Ok ([], None)) (fun _ _ => Ok tt)
    [("DB_NAME", "fts"); ("DB_USER", "scraper"); ("DB_PASSWORD", "secret")] [] 2024 =
  (Ok tt, [EvConnect "localhost" "5432" "fts" "scraper" "secret";
           EvDbError (mk_exn "ProgrammingError" true); EvClose]).
Proof.
  destruct (main_setup_failure (fun _ _ _ _ _ => Ok tt) (Raise (mk_exn "ProgrammingError" true))
    (Ok tt) (fun _ => Ok (mk_response 200 "")) (fun _ _ => Ok tt) (fun _ => Ok ([], None))
    (fun _ _ => Ok tt)
    [("DB_NAME", "fts"); ("DB_USER", "scraper"); ("DB_PASSWORD", "secret")] [] 2024%Z
    (mk_exn "ProgrammingError" true)) as [H _]; [reflexivity | reflexivity |].
  rewrite (H eq_refl). reflexivity.
Defined.
